(** * Argument builder of the build-push action (src/context.ts)

    A shallow embedding of [getArgs], [getBuildArgs], [getCommonArgs] and
    [getAttestArgs], and the properties of the emitted token sequence.

    The functions of the source push tokens on a local [args] array, report
    ignored inputs through [core.warning] and call the toolkit
    (@docker/actions-toolkit), the GitHub context and handlebars.  Here the
    array and the warnings are the state of a small state-and-exception
    monad, and the collaborators are the fields of a record [Toolkit]. *)

From Stdlib Require Import String Ascii List Bool Arith Lia.
Import ListNotations.
Open Scope string_scope.
Open Scope list_scope.

Set Implicit Arguments.

(** ** Data model *)

(** [interface Inputs], field by field. *)
Record Inputs : Type := {
  addHosts : list string;
  allow : list string;
  annotations : list string;
  attests : list string;
  buildArgs : list string;
  buildContexts : list string;
  builder : string;
  cacheFrom : list string;
  cacheTo : list string;
  cgroupParent : string;
  context : string;
  file : string;
  labels : list string;
  load : bool;
  network : string;
  noCache : bool;
  noCacheFilters : list string;
  outputs : list string;
  platforms : list string;
  provenance : string;
  pull : bool;
  push : bool;
  sbom : string;
  secrets : list string;
  secretEnvs : list string;
  secretFiles : list string;
  shmSize : string;
  ssh : list string;
  tags : list string;
  target : string;
  ulimit : list string;
  githubToken : string
}.

(** The result of a toolkit call that either returns a string or throws an
    [Error] carrying a message ([Build.resolveSecretEnv] and its siblings,
    which the source wraps in [try]/[catch]). *)
Inductive Resolution : Type :=
| Resolved (value : string)
| Failed (message : string).

(** [GitHub.context.payload]: the repository may be missing from the payload,
    and so may its [private] attribute. *)
Record PayloadRepository : Type := { private : option bool }.
Record Payload : Type := { repository : option PayloadRepository }.

(** The collaborators of the builder.  None of them is defined in this
    repository; the builder only sees their answers.  Only the three
    resolvers of secrets can fail here, the calls whose failure the source
    handles or lets through at line 173.  The other collaborators, which the
    source calls outside any [try], are taken to answer: a run in which one
    of them throws is not described, and what is proved of a function is
    proved of the runs in which it returns. *)
Record Toolkit : Type := {
  (* toolkit.buildx.versionSatisfies(range) *)
  buildx_versionSatisfies : string -> bool;
  (* toolkit.buildkit.versionSatisfies(builder, range) *)
  buildkit_versionSatisfies : string -> string -> bool;
  (* Build.* *)
  resolveSecretEnv : string -> Resolution;
  resolveSecretString : string -> Resolution;
  resolveSecretFile : string -> Resolution;
  hasLocalExporter : list string -> bool;
  hasTarExporter : list string -> bool;
  hasDockerExporter : list string -> bool -> bool;
  hasGitAuthTokenSecret : list string -> bool;
  hasAttestationType : string -> string -> bool;
  resolveAttestationAttrs : string -> string;
  resolveProvenanceAttrs : string -> string;
  getImageIDFilePath : string;
  getMetadataFilePath : string;
  (* Context.gitContext() *)
  gitContext : string;
  (* GitHub.context.payload *)
  payload : Payload;
  (* handlebars.compile(template)({defaultContext: value}) *)
  handlebars_compile : string -> string -> string
}.

(** ** JavaScript idioms *)

(** Truthiness of a string: every string but the empty one. *)
Definition truthy (s : string) : bool := negb (s =? "")%string.

(** [a ?? d] *)
Definition nullish {A : Type} (a : option A) (d : A) : A :=
  match a with Some v => v | None => d end.

(** [o?.f] *)
Definition optional_chain {A B : Type} (o : option A) (f : A -> option B)
  : option B :=
  match o with Some v => f v | None => None end.

(** [array.join(sep)] *)
Definition join (sep : string) (l : list string) : string :=
  String.concat sep l.

(** [s.startsWith(p)] *)
Definition startsWith (s p : string) : bool := String.prefix p s.

(** ** The monad of the builder *)

(** The local [args] array of the running function and the messages given to
    [core.warning] so far, oldest first. *)
Record State : Type := { args : list string; warnings : list string }.

Inductive Outcome (A : Type) : Type :=
| Returned (a : A) (s : State)
| Thrown (message : string) (s : State).

Arguments Thrown {A} message s.

Definition M (A : Type) : Type := State -> Outcome A.

Definition ret {A : Type} (a : A) : M A := fun s => Returned a s.

Definition bind {A B : Type} (m : M A) (k : A -> M B) : M B :=
  fun s =>
    match m s with
    | Returned a s' => k a s'
    | Thrown e s' => Thrown e s'
    end.

Declare Scope builder_scope.
Delimit Scope builder_scope with builder.
Bind Scope builder_scope with M.

Notation "x <- m ;; k" := (bind m (fun x => k))
  (at level 61, m at next level, right associativity) : builder_scope.
Notation "m ;; k" := (bind m (fun _ => k))
  (at level 61, right associativity) : builder_scope.

Open Scope builder_scope.

(** [throw new Error(message)] *)
Definition throw {A : Type} (message : string) : M A :=
  fun s => Thrown message s.

(** [try { body } catch (err) { handler(err.message) }]: what the body did
    before it threw stays done. *)
Definition try_catch {A : Type} (body : M A) (handler : string -> M A) : M A :=
  fun s =>
    match body s with
    | Returned a s' => Returned a s'
    | Thrown e s' => handler e s'
    end.

(** [args.push(t1, ..., tn)] *)
Definition args_push (tokens : list string) : M unit :=
  fun s => Returned tt {| args := args s ++ tokens; warnings := warnings s |}.

(** [core.warning(message)] *)
Definition core_warning (message : string) : M unit :=
  fun s => Returned tt {| args := args s; warnings := warnings s ++ [message] |}.

(** A call of a toolkit function that may throw. *)
Definition call (r : Resolution) : M string :=
  match r with
  | Resolved v => ret v
  | Failed e => throw e
  end.

(** [Util.asyncForEach(array, callback)]: the callbacks run one after the
    other, in the order of the array. *)
Fixpoint asyncForEach {A : Type} (array : list A) (callback : A -> M unit)
  : M unit :=
  match array with
  | [] => ret tt
  | x :: rest => callback x ;; asyncForEach rest callback
  end.

(** [if (c) { body }] *)
Definition when (c : bool) (body : M unit) : M unit :=
  if c then body else ret tt.

(** A function of the source that starts with [const args = init], runs
    [body] and ends with [return args]: the caller's array is not touched,
    the warnings are. *)
Definition with_args (init : list string) (body : M unit) : M (list string) :=
  fun s =>
    match body {| args := init; warnings := warnings s |} with
    | Returned _ s' =>
        Returned (args s') {| args := args s; warnings := warnings s' |}
    | Thrown e s' =>
        Thrown e {| args := args s; warnings := warnings s' |}
    end.

(** ** The builder *)

Section Builder.

Variable toolkit : Toolkit.
Variable inputs : Inputs.

(** *** getAttestArgs (lines 219-266) *)

(** Lines 223-228: whether an entry of [attests] has type provenance. *)
Definition hasAttestProvenance : bool :=
  fold_left
    (fun found attest =>
       if hasAttestationType toolkit "provenance" attest then true else found)
    (attests inputs) false.

(** Line 239: [GitHub.context.payload.repository?.private ?? false]. *)
Definition repositoryPrivate : bool :=
  nullish (optional_chain (repository (payload toolkit)) private) false.

(** Lines 232-247: the provenance input, or the default provenance.  The
    value returned is the variable [provenanceSet]. *)
Definition provenanceArgs : M bool :=
  if truthy (provenance inputs) then
    args_push ["--attest";
               resolveAttestationAttrs toolkit
                 ("type=provenance," ++ provenance inputs)%string] ;;
    ret true
  else if negb hasAttestProvenance
          && buildkit_versionSatisfies toolkit (builder inputs) ">=0.11.0"
          && negb (hasDockerExporter toolkit (outputs inputs) (load inputs))
  then
    (if repositoryPrivate then
       args_push ["--attest";
                  ("type=provenance,"
                   ++ resolveProvenanceAttrs toolkit "mode=min,inline-only=true")%string]
     else
       args_push ["--attest";
                  ("type=provenance,"
                   ++ resolveProvenanceAttrs toolkit "mode=max")%string]) ;;
    ret false
  else ret false.

(** Lines 248-251: the sbom input.  The value returned is [sbomSet]. *)
Definition sbomArgs : M bool :=
  if truthy (sbom inputs) then
    args_push ["--attest";
               resolveAttestationAttrs toolkit
                 ("type=sbom," ++ sbom inputs)%string] ;;
    ret true
  else ret false.

(** Lines 256-262: the callback of the last loop over [attests]. *)
Definition attestEntry (provenanceSet sbomSet : bool) (attest : string)
  : M unit :=
  if negb (hasAttestationType toolkit "provenance" attest)
     && negb (hasAttestationType toolkit "sbom" attest)
  then args_push ["--attest"; resolveAttestationAttrs toolkit attest]
  else if negb provenanceSet && hasAttestationType toolkit "provenance" attest
  then args_push ["--attest"; resolveProvenanceAttrs toolkit attest]
  else if negb sbomSet && hasAttestationType toolkit "sbom" attest
  then args_push ["--attest"; attest]
  else ret tt.

Definition getAttestArgs : M (list string) :=
  with_args []
    (provenanceSet <- provenanceArgs ;;
     sbomSet <- sbomArgs ;;
     asyncForEach (attests inputs) (attestEntry provenanceSet sbomSet)).

(** *** getBuildArgs (lines 94-191), block by block *)

(** Lines 96-98. *)
Definition addHostArgs : M unit :=
  asyncForEach (addHosts inputs)
    (fun addHost => args_push ["--add-host"; addHost]).

(** Lines 99-101. *)
Definition allowArgs : M unit :=
  when (0 <? List.length (allow inputs))%nat
    (args_push ["--allow"; join "," (allow inputs)]).

(** Lines 102-108. *)
Definition annotationArgs : M unit :=
  if buildx_versionSatisfies toolkit ">=0.12.0" then
    asyncForEach (annotations inputs)
      (fun annotation => args_push ["--annotation"; annotation])
  else
    when (0 <? List.length (annotations inputs))%nat
      (core_warning
         "Annotations are only supported by buildx >= 0.12.0; the input 'annotations' is ignored.").

(** Lines 109-111. *)
Definition buildArgArgs : M unit :=
  asyncForEach (buildArgs inputs)
    (fun buildArg => args_push ["--build-arg"; buildArg]).

(** Lines 112-118. *)
Definition buildContextArgs : M unit :=
  if buildx_versionSatisfies toolkit ">=0.8.0" then
    asyncForEach (buildContexts inputs)
      (fun buildContext => args_push ["--build-context"; buildContext])
  else
    when (0 <? List.length (buildContexts inputs))%nat
      (core_warning
         "Build contexts are only supported by buildx >= 0.8.0; the input 'build-contexts' is ignored.").

(** Lines 119-121. *)
Definition cacheFromArgs : M unit :=
  asyncForEach (cacheFrom inputs)
    (fun cacheFrom => args_push ["--cache-from"; cacheFrom]).

(** Lines 122-124. *)
Definition cacheToArgs : M unit :=
  asyncForEach (cacheTo inputs)
    (fun cacheTo => args_push ["--cache-to"; cacheTo]).

(** Lines 125-127. *)
Definition cgroupParentArgs : M unit :=
  when (truthy (cgroupParent inputs))
    (args_push ["--cgroup-parent"; cgroupParent inputs]).

(** Lines 128-134. *)
Definition secretEnvArgs : M unit :=
  asyncForEach (secretEnvs inputs)
    (fun secretEnv =>
       try_catch
         (v <- call (resolveSecretEnv toolkit secretEnv) ;;
          args_push ["--secret"; v])
         (fun message => core_warning message)).

(** Lines 135-137. *)
Definition fileArgs : M unit :=
  when (truthy (file inputs)) (args_push ["--file"; file inputs]).

(** Lines 138-140. *)
Definition iidfileArgs : M unit :=
  when (negb (hasLocalExporter toolkit (outputs inputs))
        && negb (hasTarExporter toolkit (outputs inputs))
        && ((List.length (platforms inputs) =? 0)%nat
            || buildx_versionSatisfies toolkit ">=0.4.2"))
    (args_push ["--iidfile"; getImageIDFilePath toolkit]).

(** Lines 141-143. *)
Definition labelArgs : M unit :=
  asyncForEach (labels inputs) (fun label => args_push ["--label"; label]).

(** Lines 144-146. *)
Definition noCacheFilterArgs : M unit :=
  asyncForEach (noCacheFilters inputs)
    (fun noCacheFilter => args_push ["--no-cache-filter"; noCacheFilter]).

(** Lines 147-149. *)
Definition outputArgs : M unit :=
  asyncForEach (outputs inputs) (fun output => args_push ["--output"; output]).

(** Lines 150-152. *)
Definition platformArgs : M unit :=
  when (0 <? List.length (platforms inputs))%nat
    (args_push ["--platform"; join "," (platforms inputs)]).

(** Lines 153-157. *)
Definition attestArgs : M unit :=
  if buildx_versionSatisfies toolkit ">=0.10.0" then
    attest <- getAttestArgs ;;
    args_push attest
  else
    core_warning
      "Attestations are only supported by buildx >= 0.10.0; the inputs 'attests', 'provenance' and 'sbom' are ignored.".

(** Lines 158-164. *)
Definition secretArgs : M unit :=
  asyncForEach (secrets inputs)
    (fun secret =>
       try_catch
         (v <- call (resolveSecretString toolkit secret) ;;
          args_push ["--secret"; v])
         (fun message => core_warning message)).

(** Lines 165-171. *)
Definition secretFileArgs : M unit :=
  asyncForEach (secretFiles inputs)
    (fun secretFile =>
       try_catch
         (v <- call (resolveSecretFile toolkit secretFile) ;;
          args_push ["--secret"; v])
         (fun message => core_warning message)).

(** Line 172: the condition of the injection of the git auth token. *)
Definition gitAuthTokenWanted (context : string) : bool :=
  truthy (githubToken inputs)
  && negb (hasGitAuthTokenSecret toolkit (secrets inputs))
  && startsWith context (gitContext toolkit).

(** Lines 172-174; the call of [Build.resolveSecretString] is not inside a
    [try]. *)
Definition gitAuthTokenArgs (context : string) : M unit :=
  when (gitAuthTokenWanted context)
    (v <- call (resolveSecretString toolkit
                  ("GIT_AUTH_TOKEN=" ++ githubToken inputs)%string) ;;
     args_push ["--secret"; v]).

(** Lines 175-177. *)
Definition shmSizeArgs : M unit :=
  when (truthy (shmSize inputs)) (args_push ["--shm-size"; shmSize inputs]).

(** Lines 178-180. *)
Definition sshArgs : M unit :=
  asyncForEach (ssh inputs) (fun ssh => args_push ["--ssh"; ssh]).

(** Lines 181-183. *)
Definition tagArgs : M unit :=
  asyncForEach (tags inputs) (fun tag => args_push ["--tag"; tag]).

(** Lines 184-186. *)
Definition targetArgs : M unit :=
  when (truthy (target inputs)) (args_push ["--target"; target inputs]).

(** Lines 187-189. *)
Definition ulimitArgs : M unit :=
  asyncForEach (ulimit inputs) (fun ulimit => args_push ["--ulimit"; ulimit]).

Definition getBuildArgs (context : string) : M (list string) :=
  with_args ["build"]
    (addHostArgs ;;
     allowArgs ;;
     annotationArgs ;;
     buildArgArgs ;;
     buildContextArgs ;;
     cacheFromArgs ;;
     cacheToArgs ;;
     cgroupParentArgs ;;
     secretEnvArgs ;;
     fileArgs ;;
     iidfileArgs ;;
     labelArgs ;;
     noCacheFilterArgs ;;
     outputArgs ;;
     platformArgs ;;
     attestArgs ;;
     secretArgs ;;
     secretFileArgs ;;
     gitAuthTokenArgs context ;;
     shmSizeArgs ;;
     sshArgs ;;
     tagArgs ;;
     targetArgs ;;
     ulimitArgs).

(** *** getCommonArgs (lines 193-217) *)

Definition getCommonArgs : M (list string) :=
  with_args []
    (when (truthy (builder inputs)) (args_push ["--builder"; builder inputs]) ;;
     when (load inputs) (args_push ["--load"]) ;;
     when (buildx_versionSatisfies toolkit ">=0.6.0")
       (args_push ["--metadata-file"; getMetadataFilePath toolkit]) ;;
     when (truthy (network inputs)) (args_push ["--network"; network inputs]) ;;
     when (noCache inputs) (args_push ["--no-cache"]) ;;
     when (pull inputs) (args_push ["--pull"]) ;;
     when (push inputs) (args_push ["--push"])).

(** *** getArgs (lines 82-92) *)

Definition getArgs : M (list string) :=
  let context :=
    handlebars_compile toolkit (context inputs) (gitContext toolkit) in
  buildArgs <- getBuildArgs context ;;
  commonArgs <- getCommonArgs ;;
  ret (buildArgs ++ commonArgs ++ [context]).

End Builder.

(** *** getInputs (lines 45-80) *)

(** The options given to [Util.getInputList]; one that is left out is
    [undefined]. *)
Record InputListOpts : Type := {
  ignoreComma : option bool;
  quote : option bool
}.

(** The readers of the inputs of the action: [core.getInput],
    [core.getBooleanInput], [Util.getInputList] and
    [Build.getProvenanceInput], none of them defined in this repository. *)
Record Action : Type := {
  getInput : string -> string;
  getBooleanInput : string -> bool;
  getInputList : string -> InputListOpts -> list string;
  getProvenanceInput : string -> string
}.

(** [a || b] on strings. *)
Definition or_else (a b : string) : string := if truthy a then a else b.

Definition getInputs (action : Action) (toolkit : Toolkit) : Inputs :=
  let plain := {| ignoreComma := None; quote := None |} in
  let ignoringComma := {| ignoreComma := Some true; quote := None |} in
  {| addHosts := getInputList action "add-hosts" plain;
     allow := getInputList action "allow" plain;
     annotations := getInputList action "annotations" ignoringComma;
     attests := getInputList action "attests" ignoringComma;
     buildArgs := getInputList action "build-args" ignoringComma;
     buildContexts := getInputList action "build-contexts" ignoringComma;
     builder := getInput action "builder";
     cacheFrom := getInputList action "cache-from" ignoringComma;
     cacheTo := getInputList action "cache-to" ignoringComma;
     cgroupParent := getInput action "cgroup-parent";
     context := or_else (getInput action "context") (gitContext toolkit);
     file := getInput action "file";
     labels := getInputList action "labels" ignoringComma;
     load := getBooleanInput action "load";
     network := getInput action "network";
     noCache := getBooleanInput action "no-cache";
     noCacheFilters := getInputList action "no-cache-filters" plain;
     outputs :=
       getInputList action "outputs"
         {| ignoreComma := Some true; quote := Some false |};
     platforms := getInputList action "platforms" plain;
     provenance := getProvenanceInput action "provenance";
     pull := getBooleanInput action "pull";
     push := getBooleanInput action "push";
     sbom := getInput action "sbom";
     secrets := getInputList action "secrets" ignoringComma;
     secretEnvs := getInputList action "secret-envs" plain;
     secretFiles := getInputList action "secret-files" ignoringComma;
     shmSize := getInput action "shm-size";
     ssh := getInputList action "ssh" plain;
     tags := getInputList action "tags" plain;
     target := getInput action "target";
     ulimit := getInputList action "ulimit" ignoringComma;
     githubToken := getInput action "github-token" |}.

(** ** Reference collaborators

    An in-memory stand-in for the toolkit, the GitHub context and handlebars,
    on which the builder can be evaluated.  It follows the toolkit on
    unquoted comma-separated values: a version is compared with the bound of
    a [>=a.b.c] range, a secret is cut at its first [=] and needs a key and a
    value, an output or an attestation has the types named by its [type=]
    fields, key and value trimmed.  A secret file resolves when the file
    exists; a secret from the environment is not looked up when it is
    resolved.  Of handlebars only the mustache [{{defaultContext}}] is known,
    which is replaced by the value with its HTML characters escaped.  Of the
    readers of the inputs, the one of booleans takes an input that
    [core.getBooleanInput] would reject as [false]. *)

Module Reference.

(** [s.split(sep)] for a one-character separator. *)
Fixpoint split (sep : ascii) (s : string) : list string :=
  match s with
  | EmptyString => [EmptyString]
  | String c rest =>
      if Ascii.eqb c sep then EmptyString :: split sep rest
      else match split sep rest with
           | piece :: pieces => String c piece :: pieces
           | [] => [String c EmptyString]
           end
  end.

(** The text before and the text after the first [sep] of [s], if [s] has
    one ([indexOf] and the two [substring]s of the toolkit). *)
Fixpoint cut (sep : ascii) (s : string) : option (string * string) :=
  match s with
  | EmptyString => None
  | String c rest =>
      if Ascii.eqb c sep then Some (EmptyString, rest)
      else match cut sep rest with
           | Some (k, v) => Some (String c k, v)
           | None => None
           end
  end.

Definition digit (c : ascii) : option nat :=
  let n := nat_of_ascii c in
  if (48 <=? n)%nat && (n <=? 57)%nat then Some (n - 48) else None.

Fixpoint number_from (acc : nat) (s : string) : option nat :=
  match s with
  | EmptyString => Some acc
  | String c rest =>
      match digit c with
      | Some d => number_from (10 * acc + d) rest
      | None => None
      end
  end.

Definition number (s : string) : option nat :=
  match s with
  | EmptyString => None
  | _ => number_from 0 s
  end.

Definition Version : Type := (nat * nat * nat)%type.

Definition version (s : string) : option Version :=
  match map number (split "." s) with
  | [Some major; Some minor; Some patch] => Some (major, minor, patch)
  | _ => None
  end.

Definition version_leb (a b : Version) : bool :=
  let '(a1, a2, a3) := a in
  let '(b1, b2, b3) := b in
  (a1 <? b1)%nat
  || ((a1 =? b1)%nat
      && ((a2 <? b2)%nat || ((a2 =? b2)%nat && (a3 <=? b3)%nat))).

(** [semver.satisfies(v, range)] for the ranges of the builder, [>=a.b.c]. *)
Definition satisfies (v : Version) (range : string) : bool :=
  match range with
  | String ">" (String "=" bound) =>
      match version bound with
      | Some b => version_leb b v
      | None => false
      end
  | _ => false
  end.

(** [s.trim()] *)
Definition blank (c : ascii) : bool :=
  let n := nat_of_ascii c in
  (n =? 32)%nat || ((9 <=? n)%nat && (n <=? 13)%nat).

Fixpoint trimStart (s : string) : string :=
  match s with
  | EmptyString => EmptyString
  | String c rest => if blank c then trimStart rest else s
  end.

Definition reversed (s : string) : string :=
  string_of_list_ascii (rev (list_ascii_of_string s)).

Definition trim (s : string) : string :=
  reversed (trimStart (reversed (trimStart s))).

(** The fields of a comma-separated value, trimmed. *)
Definition fields (csv : string) : list string := map trim (split "," csv).

(** The [type=] fields of a comma-separated value. *)
Definition hasType (name : string) (csv : string) : bool :=
  existsb
    (fun chunk =>
       match map trim (split "=" chunk) with
       | key :: value :: _ => (key =? "type")%string && (value =? name)%string
       | _ => false
       end)
    (fields csv).

(** [Util.parseBool]: the spellings of true and of false. *)
Definition parseBool (s : string) : option bool :=
  if existsb (String.eqb s) ["1"; "t"; "T"; "true"; "TRUE"; "True"]
  then Some true
  else if existsb (String.eqb s) ["0"; "f"; "F"; "false"; "FALSE"; "False"]
  then Some false
  else None.

(** [Handlebars.Utils.escapeExpression] *)
Fixpoint escapeExpression (s : string) : string :=
  match s with
  | EmptyString => EmptyString
  | String c rest =>
      ((if Ascii.eqb c "&" then "&amp;"
        else if Ascii.eqb c "<" then "&lt;"
        else if Ascii.eqb c ">" then "&gt;"
        else if (nat_of_ascii c =? 34)%nat then "&quot;"
        else if Ascii.eqb c "'" then "&#x27;"
        else if Ascii.eqb c "`" then "&#x60;"
        else if Ascii.eqb c "=" then "&#x3D;"
        else String c EmptyString)
       ++ escapeExpression rest)%string
  end.

(** [Build.hasExporterType]: an output with a single field that is not a
    type is a local output. *)
Fixpoint hasExporterType (name : string) (exporters : list string) : bool :=
  match exporters with
  | [] => false
  | exporter :: rest =>
      match fields exporter with
      | [single] =>
          if negb (startsWith single "type=") then (name =? "local")%string
          else hasType name exporter || hasExporterType name rest
      | _ => hasType name exporter || hasExporterType name rest
      end
  end.

Definition invalidSecret (kvp : string) : Resolution :=
  Failed (kvp ++ " is not a valid secret")%string.

(** A secret [key=value] with a key and a value. *)
Definition secretKvp (kvp : string) : option (string * string) :=
  match cut "=" kvp with
  | Some (key, value) =>
      if ((key =? "") || (value =? ""))%string then None
      else Some (key, value)
  | None => None
  end.

Definition workflowRunURL : string :=
  "https://github.com/docker/build-push-action/actions/runs/123".

(** [text] with every occurrence of [placeholder] replaced by [value];
    [skip] counts the characters of an occurrence still to be dropped. *)
Fixpoint substitute (placeholder value : string) (skip : nat) (text : string)
  : string :=
  match text with
  | EmptyString => EmptyString
  | String c rest =>
      match skip with
      | S n => substitute placeholder value n rest
      | O =>
          if startsWith text placeholder then
            (value
             ++ substitute placeholder value
                  (String.length placeholder - 1) rest)%string
          else String c (substitute placeholder value 0 rest)
      end
  end.

(** [Build.resolveProvenanceAttrs] *)
Definition provenanceAttrs (input : string) : string :=
  if (input =? "")%string then ("builder-id=" ++ workflowRunURL)%string
  else if existsb (fun attr => startsWith attr "builder-id=") (fields input)
  then input
  else (input ++ ",builder-id=" ++ workflowRunURL)%string.

(** The collaborators of a run: the versions of buildx and of BuildKit, the
    environment variables that are set (no resolution reads them: buildx
    does, when it builds), the files that exist and the visibility of the
    repository. *)
Definition toolkit (buildx buildkit : Version) (env files : list string)
    (visibility : Payload) : Toolkit :=
  {| buildx_versionSatisfies := satisfies buildx;
     buildkit_versionSatisfies := fun _ range => satisfies buildkit range;
     resolveSecretEnv := fun kvp =>
       match secretKvp kvp with
       | Some (key, value) =>
           Resolved ("id=" ++ key ++ ",env=" ++ value)%string
       | None => invalidSecret kvp
       end;
     resolveSecretString := fun kvp =>
       match secretKvp kvp with
       | Some (key, _) =>
           Resolved ("id=" ++ key ++ ",src=/tmp/secrets/" ++ key)%string
       | None => invalidSecret kvp
       end;
     resolveSecretFile := fun kvp =>
       match secretKvp kvp with
       | Some (key, value) =>
           if existsb (String.eqb value) files
           then Resolved ("id=" ++ key ++ ",src=/tmp/secrets/" ++ key)%string
           else Failed ("secret file " ++ value ++ " not found")%string
       | None => invalidSecret kvp
       end;
     hasLocalExporter := hasExporterType "local";
     hasTarExporter := hasExporterType "tar";
     hasDockerExporter := fun exporters load =>
       load || hasExporterType "docker" exporters;
     hasGitAuthTokenSecret :=
       existsb (fun secret => startsWith secret "GIT_AUTH_TOKEN=");
     hasAttestationType := hasType;
     resolveAttestationAttrs := fun attrs =>
       join ","
         (map (fun attr =>
                 match parseBool attr with
                 | Some true => "disabled=false"
                 | Some false => "disabled=true"
                 | None => attr
                 end)
              (fields attrs));
     resolveProvenanceAttrs := provenanceAttrs;
     getImageIDFilePath := "/tmp/docker-actions-toolkit/iidfile";
     getMetadataFilePath := "/tmp/docker-actions-toolkit/metadata-file";
     gitContext :=
       "https://github.com/docker/build-push-action.git#refs/heads/master";
     payload := visibility;
     handlebars_compile := fun template defaultContext =>
       substitute "{{defaultContext}}" (escapeExpression defaultContext) 0
         template |}.

Definition publicRepository : Payload :=
  {| repository := Some {| private := Some false |} |}.

(** The inputs of a run that sets nothing but the context. *)
Definition inputs (context : string) : Inputs :=
  {| addHosts := []; allow := []; annotations := []; attests := [];
     buildArgs := []; buildContexts := []; builder := ""; cacheFrom := [];
     cacheTo := []; cgroupParent := ""; context := context; file := "";
     labels := []; load := false; network := ""; noCache := false;
     noCacheFilters := []; outputs := []; platforms := []; provenance := "";
     pull := false; push := false; sbom := ""; secrets := [];
     secretEnvs := []; secretFiles := []; shmSize := ""; ssh := [];
     tags := []; target := ""; ulimit := []; githubToken := "" |}.

(** The collaborators [tk] on a runner whose temporary directory cannot be
    written: [Build.resolveSecretString], which writes the value of the
    secret to a file there, fails whatever the secret. *)
Definition fullDisk (tk : Toolkit) : Toolkit :=
  {| buildx_versionSatisfies := buildx_versionSatisfies tk;
     buildkit_versionSatisfies := buildkit_versionSatisfies tk;
     resolveSecretEnv := resolveSecretEnv tk;
     resolveSecretString := fun _ =>
       Failed "ENOSPC: no space left on device, write";
     resolveSecretFile := resolveSecretFile tk;
     hasLocalExporter := hasLocalExporter tk;
     hasTarExporter := hasTarExporter tk;
     hasDockerExporter := hasDockerExporter tk;
     hasGitAuthTokenSecret := hasGitAuthTokenSecret tk;
     hasAttestationType := hasAttestationType tk;
     resolveAttestationAttrs := resolveAttestationAttrs tk;
     resolveProvenanceAttrs := resolveProvenanceAttrs tk;
     getImageIDFilePath := getImageIDFilePath tk;
     getMetadataFilePath := getMetadataFilePath tk;
     gitContext := gitContext tk;
     payload := payload tk;
     handlebars_compile := handlebars_compile tk |}.



Definition set_attests (v : list string) (i : Inputs) : Inputs :=
  {| addHosts := addHosts i; allow := allow i; annotations := annotations i;
     attests := v; buildArgs := buildArgs i;
     buildContexts := buildContexts i; builder := builder i;
     cacheFrom := cacheFrom i; cacheTo := cacheTo i;
     cgroupParent := cgroupParent i; context := context i; file := file i;
     labels := labels i; load := load i; network := network i;
     noCache := noCache i; noCacheFilters := noCacheFilters i;
     outputs := outputs i; platforms := platforms i;
     provenance := provenance i; pull := pull i; push := push i;
     sbom := sbom i; secrets := secrets i; secretEnvs := secretEnvs i;
     secretFiles := secretFiles i; shmSize := shmSize i; ssh := ssh i;
     tags := tags i; target := target i; ulimit := ulimit i;
     githubToken := githubToken i |}.


Definition set_outputs (v : list string) (i : Inputs) : Inputs :=
  {| addHosts := addHosts i; allow := allow i; annotations := annotations i;
     attests := attests i; buildArgs := buildArgs i;
     buildContexts := buildContexts i; builder := builder i;
     cacheFrom := cacheFrom i; cacheTo := cacheTo i;
     cgroupParent := cgroupParent i; context := context i; file := file i;
     labels := labels i; load := load i; network := network i;
     noCache := noCache i; noCacheFilters := noCacheFilters i; outputs := v;
     platforms := platforms i; provenance := provenance i; pull := pull i;
     push := push i; sbom := sbom i; secrets := secrets i;
     secretEnvs := secretEnvs i; secretFiles := secretFiles i;
     shmSize := shmSize i; ssh := ssh i; tags := tags i; target := target i;
     ulimit := ulimit i; githubToken := githubToken i |}.


Definition set_provenance (v : string) (i : Inputs) : Inputs :=
  {| addHosts := addHosts i; allow := allow i; annotations := annotations i;
     attests := attests i; buildArgs := buildArgs i;
     buildContexts := buildContexts i; builder := builder i;
     cacheFrom := cacheFrom i; cacheTo := cacheTo i;
     cgroupParent := cgroupParent i; context := context i; file := file i;
     labels := labels i; load := load i; network := network i;
     noCache := noCache i; noCacheFilters := noCacheFilters i;
     outputs := outputs i; platforms := platforms i; provenance := v;
     pull := pull i; push := push i; sbom := sbom i; secrets := secrets i;
     secretEnvs := secretEnvs i; secretFiles := secretFiles i;
     shmSize := shmSize i; ssh := ssh i; tags := tags i; target := target i;
     ulimit := ulimit i; githubToken := githubToken i |}.

Definition set_push (v : bool) (i : Inputs) : Inputs :=
  {| addHosts := addHosts i; allow := allow i; annotations := annotations i;
     attests := attests i; buildArgs := buildArgs i;
     buildContexts := buildContexts i; builder := builder i;
     cacheFrom := cacheFrom i; cacheTo := cacheTo i;
     cgroupParent := cgroupParent i; context := context i; file := file i;
     labels := labels i; load := load i; network := network i;
     noCache := noCache i; noCacheFilters := noCacheFilters i;
     outputs := outputs i; platforms := platforms i;
     provenance := provenance i; pull := pull i; push := v; sbom := sbom i;
     secrets := secrets i; secretEnvs := secretEnvs i;
     secretFiles := secretFiles i; shmSize := shmSize i; ssh := ssh i;
     tags := tags i; target := target i; ulimit := ulimit i;
     githubToken := githubToken i |}.

Definition set_sbom (v : string) (i : Inputs) : Inputs :=
  {| addHosts := addHosts i; allow := allow i; annotations := annotations i;
     attests := attests i; buildArgs := buildArgs i;
     buildContexts := buildContexts i; builder := builder i;
     cacheFrom := cacheFrom i; cacheTo := cacheTo i;
     cgroupParent := cgroupParent i; context := context i; file := file i;
     labels := labels i; load := load i; network := network i;
     noCache := noCache i; noCacheFilters := noCacheFilters i;
     outputs := outputs i; platforms := platforms i;
     provenance := provenance i; pull := pull i; push := push i; sbom := v;
     secrets := secrets i; secretEnvs := secretEnvs i;
     secretFiles := secretFiles i; shmSize := shmSize i; ssh := ssh i;
     tags := tags i; target := target i; ulimit := ulimit i;
     githubToken := githubToken i |}.

Definition set_secrets (v : list string) (i : Inputs) : Inputs :=
  {| addHosts := addHosts i; allow := allow i; annotations := annotations i;
     attests := attests i; buildArgs := buildArgs i;
     buildContexts := buildContexts i; builder := builder i;
     cacheFrom := cacheFrom i; cacheTo := cacheTo i;
     cgroupParent := cgroupParent i; context := context i; file := file i;
     labels := labels i; load := load i; network := network i;
     noCache := noCache i; noCacheFilters := noCacheFilters i;
     outputs := outputs i; platforms := platforms i;
     provenance := provenance i; pull := pull i; push := push i;
     sbom := sbom i; secrets := v; secretEnvs := secretEnvs i;
     secretFiles := secretFiles i; shmSize := shmSize i; ssh := ssh i;
     tags := tags i; target := target i; ulimit := ulimit i;
     githubToken := githubToken i |}.

Definition set_secretEnvs (v : list string) (i : Inputs) : Inputs :=
  {| addHosts := addHosts i; allow := allow i; annotations := annotations i;
     attests := attests i; buildArgs := buildArgs i;
     buildContexts := buildContexts i; builder := builder i;
     cacheFrom := cacheFrom i; cacheTo := cacheTo i;
     cgroupParent := cgroupParent i; context := context i; file := file i;
     labels := labels i; load := load i; network := network i;
     noCache := noCache i; noCacheFilters := noCacheFilters i;
     outputs := outputs i; platforms := platforms i;
     provenance := provenance i; pull := pull i; push := push i;
     sbom := sbom i; secrets := secrets i; secretEnvs := v;
     secretFiles := secretFiles i; shmSize := shmSize i; ssh := ssh i;
     tags := tags i; target := target i; ulimit := ulimit i;
     githubToken := githubToken i |}.

Definition set_secretFiles (v : list string) (i : Inputs) : Inputs :=
  {| addHosts := addHosts i; allow := allow i; annotations := annotations i;
     attests := attests i; buildArgs := buildArgs i;
     buildContexts := buildContexts i; builder := builder i;
     cacheFrom := cacheFrom i; cacheTo := cacheTo i;
     cgroupParent := cgroupParent i; context := context i; file := file i;
     labels := labels i; load := load i; network := network i;
     noCache := noCache i; noCacheFilters := noCacheFilters i;
     outputs := outputs i; platforms := platforms i;
     provenance := provenance i; pull := pull i; push := push i;
     sbom := sbom i; secrets := secrets i; secretEnvs := secretEnvs i;
     secretFiles := v; shmSize := shmSize i; ssh := ssh i; tags := tags i;
     target := target i; ulimit := ulimit i; githubToken := githubToken i |}.

Definition set_tags (v : list string) (i : Inputs) : Inputs :=
  {| addHosts := addHosts i; allow := allow i; annotations := annotations i;
     attests := attests i; buildArgs := buildArgs i;
     buildContexts := buildContexts i; builder := builder i;
     cacheFrom := cacheFrom i; cacheTo := cacheTo i;
     cgroupParent := cgroupParent i; context := context i; file := file i;
     labels := labels i; load := load i; network := network i;
     noCache := noCache i; noCacheFilters := noCacheFilters i;
     outputs := outputs i; platforms := platforms i;
     provenance := provenance i; pull := pull i; push := push i;
     sbom := sbom i; secrets := secrets i; secretEnvs := secretEnvs i;
     secretFiles := secretFiles i; shmSize := shmSize i; ssh := ssh i;
     tags := v; target := target i; ulimit := ulimit i;
     githubToken := githubToken i |}.

Definition set_githubToken (v : string) (i : Inputs) : Inputs :=
  {| addHosts := addHosts i; allow := allow i; annotations := annotations i;
     attests := attests i; buildArgs := buildArgs i;
     buildContexts := buildContexts i; builder := builder i;
     cacheFrom := cacheFrom i; cacheTo := cacheTo i;
     cgroupParent := cgroupParent i; context := context i; file := file i;
     labels := labels i; load := load i; network := network i;
     noCache := noCache i; noCacheFilters := noCacheFilters i;
     outputs := outputs i; platforms := platforms i;
     provenance := provenance i; pull := pull i; push := push i;
     sbom := sbom i; secrets := secrets i; secretEnvs := secretEnvs i;
     secretFiles := secretFiles i; shmSize := shmSize i; ssh := ssh i;
     tags := tags i; target := target i; ulimit := ulimit i;
     githubToken := v |}.

(** The inputs of the action given as the [with:] block of a workflow: a
    missing input reads as the empty string; a list has one entry per line,
    or per comma-separated field of a line unless commas are ignored, the
    empty entries dropped and the others trimmed. *)
Fixpoint lookup (name : string) (block : list (string * string)) : string :=
  match block with
  | [] => EmptyString
  | (key, value) :: rest =>
      if (key =? name)%string then value else lookup name rest
  end.

Definition inputList (opts : InputListOpts) (s : string) : list string :=
  map trim
    (filter (fun item => negb (item =? "")%string)
       (flat_map
          (fun line =>
             match ignoreComma opts with
             | Some true => [line]
             | _ => split "," line
             end)
          (split "010" s))).

Definition booleanInput (s : string) : bool :=
  existsb (String.eqb s) ["true"; "True"; "TRUE"].

Definition action (block : list (string * string)) : Action :=
  {| getInput := fun name => lookup name block;
     getBooleanInput := fun name => booleanInput (lookup name block);
     getInputList := fun name opts => inputList opts (lookup name block);
     getProvenanceInput := fun name =>
       let input := lookup name block in
       if (input =? "")%string then input
       else if booleanInput input
       then ("builder-id=" ++ workflowRunURL)%string
       else if existsb (String.eqb input) ["false"; "False"; "FALSE"]
       then "false"
       else provenanceAttrs input |}.

Definition start : State := {| args := []; warnings := [] |}.

End Reference.

(** ** What a computation appends *)

(** [s] after the tokens [a] were pushed and the warnings [w] given. *)
Definition extend (s : State) (a w : list string) : State :=
  {| args := args s ++ a; warnings := warnings s ++ w |}.

(** [m] returns [v], having pushed exactly [a] and warned exactly [w],
    whatever the state it starts in. *)
Definition yields {A : Type} (m : M A) (v : A) (a w : list string) : Prop :=
  forall s, m s = Returned v (extend s a w).

Definition emits (m : M unit) (a w : list string) : Prop := yields m tt a w.

(** The tokens and the warnings of a block that runs on its own. *)
Definition tokensOf (m : M unit) : list string :=
  match m {| args := []; warnings := [] |} with
  | Returned _ s => args s
  | Thrown _ s => args s
  end.

Definition warningsOf (m : M unit) : list string :=
  match m {| args := []; warnings := [] |} with
  | Returned _ s => warnings s
  | Thrown _ s => warnings s
  end.

(** One flag per value: [flag v1 flag v2 ...]. *)
Definition repeated (flag : string) (values : list string) : list string :=
  flat_map (fun v => [flag; v]) values.

(** The [--secret] flags of the entries that resolve, and the messages of
    those that do not. *)
Definition secretFlags (resolve : string -> Resolution) (entries : list string)
  : list string :=
  flat_map
    (fun entry =>
       match resolve entry with
       | Resolved v => ["--secret"; v]
       | Failed _ => []
       end)
    entries.

Definition secretFailures (resolve : string -> Resolution)
    (entries : list string) : list string :=
  flat_map
    (fun entry =>
       match resolve entry with
       | Resolved _ => []
       | Failed message => [message]
       end)
    entries.

Definition resolves (r : Resolution) : bool :=
  match r with Resolved _ => true | Failed _ => false end.

Definition appender (m : M unit) : Prop :=
  emits m (tokensOf m) (warningsOf m).

(** The blocks of [getBuildArgs] that run before the injection of the git
    auth token, and those that run after it, in the order of the source. *)
Definition blocksBefore (toolkit : Toolkit) (inputs : Inputs)
  : list (M unit) :=
  [ addHostArgs inputs; allowArgs inputs; annotationArgs toolkit inputs;
    buildArgArgs inputs; buildContextArgs toolkit inputs;
    cacheFromArgs inputs; cacheToArgs inputs; cgroupParentArgs inputs;
    secretEnvArgs toolkit inputs; fileArgs inputs;
    iidfileArgs toolkit inputs; labelArgs inputs; noCacheFilterArgs inputs;
    outputArgs inputs; platformArgs inputs; attestArgs toolkit inputs;
    secretArgs toolkit inputs; secretFileArgs toolkit inputs ].

Definition blocksAfter (inputs : Inputs) : list (M unit) :=
  [ shmSizeArgs inputs; sshArgs inputs; tagArgs inputs; targetArgs inputs;
    ulimitArgs inputs ].

(** The blocks run one after the other, then [k]. *)
Fixpoint sequence (blocks : list (M unit)) (k : M unit) : M unit :=
  match blocks with
  | [] => k
  | m :: rest => m ;; sequence rest k
  end.

(** The tokens of the provenance input or of the default provenance
    (lines 232-247), of the sbom input (lines 248-251) and of one entry of
    [attests] (lines 256-262). *)
Definition defaultProvenance (toolkit : Toolkit) : string :=
  if repositoryPrivate toolkit
  then ("type=provenance,"
        ++ resolveProvenanceAttrs toolkit "mode=min,inline-only=true")%string
  else ("type=provenance," ++ resolveProvenanceAttrs toolkit "mode=max")%string.

Definition defaultProvenanceWanted (toolkit : Toolkit) (inputs : Inputs)
  : bool :=
  negb (hasAttestProvenance toolkit inputs)
  && buildkit_versionSatisfies toolkit (builder inputs) ">=0.11.0"
  && negb (hasDockerExporter toolkit (outputs inputs) (load inputs)).

Definition provenanceTokens (toolkit : Toolkit) (inputs : Inputs)
  : list string :=
  if truthy (provenance inputs) then
    ["--attest";
     resolveAttestationAttrs toolkit
       ("type=provenance," ++ provenance inputs)%string]
  else if defaultProvenanceWanted toolkit inputs then
    ["--attest"; defaultProvenance toolkit]
  else [].

Definition sbomTokens (toolkit : Toolkit) (inputs : Inputs) : list string :=
  if truthy (sbom inputs) then
    ["--attest";
     resolveAttestationAttrs toolkit ("type=sbom," ++ sbom inputs)%string]
  else [].

Definition attestEntryTokens (toolkit : Toolkit) (inputs : Inputs)
    (attest : string) : list string :=
  tokensOf
    (attestEntry toolkit (truthy (provenance inputs)) (truthy (sbom inputs))
       attest).

(** What [getAttestArgs] returns. *)
Definition attestTokens (toolkit : Toolkit) (inputs : Inputs) : list string :=
  provenanceTokens toolkit inputs ++ sbomTokens toolkit inputs
  ++ flat_map (attestEntryTokens toolkit inputs) (attests inputs).

(** An entry of [attests] is of type [name]. *)
Definition typed (toolkit : Toolkit) (name attest : string) : bool :=
  hasAttestationType toolkit name attest.

(** [flag value] for a value that is set, [flag v1,v2,...] for a list that
    is not empty. *)
Definition single (flag value : string) : list string :=
  if truthy value then [flag; value] else [].

Definition joined (flag : string) (values : list string) : list string :=
  if (0 <? List.length values)%nat then [flag; join "," values] else [].

Definition iidfileWanted (toolkit : Toolkit) (inputs : Inputs) : bool :=
  negb (hasLocalExporter toolkit (outputs inputs))
  && negb (hasTarExporter toolkit (outputs inputs))
  && ((List.length (platforms inputs) =? 0)%nat
      || buildx_versionSatisfies toolkit ">=0.4.2").

Definition annotationsIgnored : string :=
  "Annotations are only supported by buildx >= 0.12.0; the input 'annotations' is ignored.".
Definition buildContextsIgnored : string :=
  "Build contexts are only supported by buildx >= 0.8.0; the input 'build-contexts' is ignored.".
Definition attestationsIgnored : string :=
  "Attestations are only supported by buildx >= 0.10.0; the inputs 'attests', 'provenance' and 'sbom' are ignored.".

(** The tokens that [getBuildArgs] pushes after ["build"] and before the
    git auth token, block after block. *)
Definition tokensBefore (toolkit : Toolkit) (inputs : Inputs) : list string :=
  repeated "--add-host" (addHosts inputs)
  ++ joined "--allow" (allow inputs)
  ++ (if buildx_versionSatisfies toolkit ">=0.12.0"
      then repeated "--annotation" (annotations inputs) else [])
  ++ repeated "--build-arg" (buildArgs inputs)
  ++ (if buildx_versionSatisfies toolkit ">=0.8.0"
      then repeated "--build-context" (buildContexts inputs) else [])
  ++ repeated "--cache-from" (cacheFrom inputs)
  ++ repeated "--cache-to" (cacheTo inputs)
  ++ single "--cgroup-parent" (cgroupParent inputs)
  ++ secretFlags (resolveSecretEnv toolkit) (secretEnvs inputs)
  ++ single "--file" (file inputs)
  ++ (if iidfileWanted toolkit inputs
      then ["--iidfile"; getImageIDFilePath toolkit] else [])
  ++ repeated "--label" (labels inputs)
  ++ repeated "--no-cache-filter" (noCacheFilters inputs)
  ++ repeated "--output" (outputs inputs)
  ++ joined "--platform" (platforms inputs)
  ++ (if buildx_versionSatisfies toolkit ">=0.10.0"
      then attestTokens toolkit inputs else [])
  ++ secretFlags (resolveSecretString toolkit) (secrets inputs)
  ++ secretFlags (resolveSecretFile toolkit) (secretFiles inputs).

(** The tokens that it pushes after the git auth token. *)
Definition tokensAfter (inputs : Inputs) : list string :=
  single "--shm-size" (shmSize inputs)
  ++ repeated "--ssh" (ssh inputs)
  ++ repeated "--tag" (tags inputs)
  ++ single "--target" (target inputs)
  ++ repeated "--ulimit" (ulimit inputs).

(** The warnings of [getBuildArgs], oldest first. *)
Definition buildWarnings (toolkit : Toolkit) (inputs : Inputs) : list string :=
  (if buildx_versionSatisfies toolkit ">=0.12.0" then []
   else if (0 <? List.length (annotations inputs))%nat
   then [annotationsIgnored] else [])
  ++ (if buildx_versionSatisfies toolkit ">=0.8.0" then []
      else if (0 <? List.length (buildContexts inputs))%nat
      then [buildContextsIgnored] else [])
  ++ secretFailures (resolveSecretEnv toolkit) (secretEnvs inputs)
  ++ (if buildx_versionSatisfies toolkit ">=0.10.0" then []
      else [attestationsIgnored])
  ++ secretFailures (resolveSecretString toolkit) (secrets inputs)
  ++ secretFailures (resolveSecretFile toolkit) (secretFiles inputs).

(** What [getCommonArgs] returns. *)
Definition commonTokens (toolkit : Toolkit) (inputs : Inputs) : list string :=
  single "--builder" (builder inputs)
  ++ (if load inputs then ["--load"] else [])
  ++ (if buildx_versionSatisfies toolkit ">=0.6.0"
      then ["--metadata-file"; getMetadataFilePath toolkit] else [])
  ++ single "--network" (network inputs)
  ++ (if noCache inputs then ["--no-cache"] else [])
  ++ (if pull inputs then ["--pull"] else [])
  ++ (if push inputs then ["--push"] else []).

(** The secret that line 173 resolves. *)
Definition gitAuthTokenSecret (inputs : Inputs) : string :=
  ("GIT_AUTH_TOKEN=" ++ githubToken inputs)%string.

(** The build context after template expansion (lines 83-85). *)
Definition expandedContext (toolkit : Toolkit) (inputs : Inputs) : string :=
  handlebars_compile toolkit (context inputs) (gitContext toolkit).

(** What the caller of a function gets: the value returned or the message
    of the error thrown. *)
Definition result {A : Type} (o : Outcome A) : A + string :=
  match o with
  | Returned a _ => inl a
  | Thrown e _ => inr e
  end.

(** The ranges that the builder asks buildx about. *)
Definition buildxRanges : list string :=
  [">=0.12.0"; ">=0.8.0"; ">=0.4.2"; ">=0.10.0"; ">=0.6.0"].

(** Two sets of collaborators answer alike every question that the builder
    asks for the configuration [inputs]. *)
Record SameResponses (tk1 tk2 : Toolkit) (inputs : Inputs) : Prop := {
  same_buildx : forall range,
    In range buildxRanges ->
    buildx_versionSatisfies tk1 range = buildx_versionSatisfies tk2 range;
  same_buildkit :
    buildkit_versionSatisfies tk1 (builder inputs) ">=0.11.0"
    = buildkit_versionSatisfies tk2 (builder inputs) ">=0.11.0";
  same_secretEnv : forall entry,
    In entry (secretEnvs inputs) ->
    resolveSecretEnv tk1 entry = resolveSecretEnv tk2 entry;
  same_secretString : forall entry,
    In entry (gitAuthTokenSecret inputs :: secrets inputs) ->
    resolveSecretString tk1 entry = resolveSecretString tk2 entry;
  same_secretFile : forall entry,
    In entry (secretFiles inputs) ->
    resolveSecretFile tk1 entry = resolveSecretFile tk2 entry;
  same_local :
    hasLocalExporter tk1 (outputs inputs)
    = hasLocalExporter tk2 (outputs inputs);
  same_tar :
    hasTarExporter tk1 (outputs inputs) = hasTarExporter tk2 (outputs inputs);
  same_docker :
    hasDockerExporter tk1 (outputs inputs) (load inputs)
    = hasDockerExporter tk2 (outputs inputs) (load inputs);
  same_gitAuthTokenSecret :
    hasGitAuthTokenSecret tk1 (secrets inputs)
    = hasGitAuthTokenSecret tk2 (secrets inputs);
  same_type : forall name attest,
    In name ["provenance"; "sbom"] ->
    In attest (attests inputs) ->
    hasAttestationType tk1 name attest = hasAttestationType tk2 name attest;
  same_attestationAttrs : forall attrs,
    In attrs (("type=provenance," ++ provenance inputs)%string
              :: ("type=sbom," ++ sbom inputs)%string :: attests inputs) ->
    resolveAttestationAttrs tk1 attrs = resolveAttestationAttrs tk2 attrs;
  same_provenanceAttrs : forall attrs,
    In attrs ("mode=min,inline-only=true" :: "mode=max" :: attests inputs) ->
    resolveProvenanceAttrs tk1 attrs = resolveProvenanceAttrs tk2 attrs;
  same_iidfile : getImageIDFilePath tk1 = getImageIDFilePath tk2;
  same_metadata : getMetadataFilePath tk1 = getMetadataFilePath tk2;
  same_gitContext : gitContext tk1 = gitContext tk2;
  same_private : repositoryPrivate tk1 = repositoryPrivate tk2;
  same_template :
    handlebars_compile tk1 (context inputs) (gitContext tk1)
    = handlebars_compile tk2 (context inputs) (gitContext tk2)
}.

Arguments same_buildx {tk1 tk2 inputs} _ range _.
Arguments same_secretEnv {tk1 tk2 inputs} _ entry _.
Arguments same_secretString {tk1 tk2 inputs} _ entry _.
Arguments same_secretFile {tk1 tk2 inputs} _ entry _.
Arguments same_type {tk1 tk2 inputs} _ name attest _ _.
Arguments same_attestationAttrs {tk1 tk2 inputs} _ attrs _.
Arguments same_provenanceAttrs {tk1 tk2 inputs} _ attrs _.

(** The state in which a computation ends, whether it returns or throws. *)
Definition stateOf {A : Type} (o : Outcome A) : State :=
  match o with
  | Returned _ s => s
  | Thrown _ s => s
  end.

(** A list of tokens made of pairs, a flag of [names] and its value. *)
Inductive Paired (names : list string) : list string -> Prop :=
| Paired_nil : Paired names []
| Paired_cons (flag value : string) (rest : list string) :
    In flag names -> Paired names rest ->
    Paired names (flag :: value :: rest).

(** The flags that [getBuildArgs] pushes with a value. *)
Definition buildFlagNames : list string :=
  ["--add-host"; "--allow"; "--annotation"; "--build-arg"; "--build-context";
   "--cache-from"; "--cache-to"; "--cgroup-parent"; "--secret"; "--file";
   "--iidfile"; "--label"; "--no-cache-filter"; "--output"; "--platform";
   "--attest"; "--shm-size"; "--ssh"; "--tag"; "--target"; "--ulimit"].

(** The tokens of [tokensBefore], block by block. *)
Definition segmentsBefore (toolkit : Toolkit) (inputs : Inputs)
  : list (list string) :=
  [ repeated "--add-host" (addHosts inputs);
    joined "--allow" (allow inputs);
    (if buildx_versionSatisfies toolkit ">=0.12.0"
     then repeated "--annotation" (annotations inputs) else []);
    repeated "--build-arg" (buildArgs inputs);
    (if buildx_versionSatisfies toolkit ">=0.8.0"
     then repeated "--build-context" (buildContexts inputs) else []);
    repeated "--cache-from" (cacheFrom inputs);
    repeated "--cache-to" (cacheTo inputs);
    single "--cgroup-parent" (cgroupParent inputs);
    secretFlags (resolveSecretEnv toolkit) (secretEnvs inputs);
    single "--file" (file inputs);
    (if iidfileWanted toolkit inputs
     then ["--iidfile"; getImageIDFilePath toolkit] else []);
    repeated "--label" (labels inputs);
    repeated "--no-cache-filter" (noCacheFilters inputs);
    repeated "--output" (outputs inputs);
    joined "--platform" (platforms inputs);
    (if buildx_versionSatisfies toolkit ">=0.10.0"
     then attestTokens toolkit inputs else []);
    secretFlags (resolveSecretString toolkit) (secrets inputs);
    secretFlags (resolveSecretFile toolkit) (secretFiles inputs) ].

(** The warnings of [buildWarnings], block by block. *)
Definition warningSegments (toolkit : Toolkit) (inputs : Inputs)
  : list (list string) :=
  [ (if buildx_versionSatisfies toolkit ">=0.12.0" then []
     else if (0 <? List.length (annotations inputs))%nat
     then [annotationsIgnored] else []);
    (if buildx_versionSatisfies toolkit ">=0.8.0" then []
     else if (0 <? List.length (buildContexts inputs))%nat
     then [buildContextsIgnored] else []);
    secretFailures (resolveSecretEnv toolkit) (secretEnvs inputs);
    (if buildx_versionSatisfies toolkit ">=0.10.0" then []
     else [attestationsIgnored]);
    secretFailures (resolveSecretString toolkit) (secrets inputs);
    secretFailures (resolveSecretFile toolkit) (secretFiles inputs) ].

Lemma extend_nil (s : State) : extend s [] [] = s.
Proof. destruct s; unfold extend; simpl; now rewrite !app_nil_r. Qed.

Lemma extend_extend (s : State) (a w a' w' : list string) :
  extend (extend s a w) a' w' = extend s (a ++ a') (w ++ w').
Proof. unfold extend; simpl; now rewrite !app_assoc. Qed.

Lemma yields_ret {A : Type} (v : A) : yields (ret v) v [] [].
Proof. intros s; unfold ret; now rewrite extend_nil. Qed.

Lemma yields_bind {A B : Type} (m : M A) (k : A -> M B) v a w v' a' w' :
  yields m v a w -> yields (k v) v' a' w' ->
  yields (bind m k) v' (a ++ a') (w ++ w').
Proof.
  intros Hm Hk s. unfold bind. rewrite Hm, Hk. now rewrite extend_extend.
Qed.

Lemma emits_push (tokens : list string) : emits (args_push tokens) tokens [].
Proof.
  intros s. unfold args_push, extend. now rewrite app_nil_r.
Qed.

Lemma emits_warning (message : string) :
  emits (core_warning message) [] [message].
Proof.
  intros s. unfold core_warning, extend. now rewrite app_nil_r.
Qed.

Lemma emits_seq (m k : M unit) a w a' w' :
  emits m a w -> emits k a' w' -> emits (m ;; k) (a ++ a') (w ++ w').
Proof. intros Hm Hk. now apply yields_bind with (v := tt). Qed.

Lemma emits_forEach {A : Type} (callback : A -> M unit)
    (fa fw : A -> list string) (array : list A) :
  (forall x, emits (callback x) (fa x) (fw x)) ->
  emits (asyncForEach array callback) (flat_map fa array) (flat_map fw array).
Proof.
  intros H. induction array as [|x rest IH]; simpl.
  - apply yields_ret.
  - now apply emits_seq.
Qed.

Lemma emits_repeated (flag : string) (values : list string) :
  emits (asyncForEach values (fun v => args_push [flag; v]))
        (repeated flag values) [].
Proof.
  assert (E : flat_map (fun _ : string => @nil string) values = []) by
    (induction values; simpl; auto).
  pose proof (emits_forEach (fun v => args_push [flag; v])
                (fun v => [flag; v]) (fun _ => []) values
                (fun x => emits_push [flag; x])) as H.
  rewrite E in H. exact H.
Qed.

Lemma emits_tokensOf (m : M unit) a w :
  emits m a w -> tokensOf m = a /\ warningsOf m = w.
Proof.
  intros H. unfold tokensOf, warningsOf. now rewrite H.
Qed.

(** A secret that resolves is pushed; one that does not is a warning. *)
Lemma emits_secret (r : Resolution) :
  emits
    (try_catch (v <- call r ;; args_push ["--secret"; v])
               (fun message => core_warning message))
    (match r with Resolved v => ["--secret"; v] | Failed _ => [] end)
    (match r with Resolved _ => [] | Failed message => [message] end).
Proof.
  intros s. destruct r as [v|e]; unfold try_catch, bind, call, ret, throw.
  - apply emits_push.
  - apply emits_warning.
Qed.

Lemma emits_secrets (resolve : string -> Resolution) (entries : list string) :
  emits
    (asyncForEach entries
       (fun entry =>
          try_catch (v <- call (resolve entry) ;; args_push ["--secret"; v])
                    (fun message => core_warning message)))
    (secretFlags resolve entries) (secretFailures resolve entries).
Proof.
  unfold secretFlags, secretFailures.
  apply emits_forEach with
    (fa := fun entry =>
             match resolve entry with
             | Resolved v => ["--secret"; v] | Failed _ => [] end)
    (fw := fun entry =>
             match resolve entry with
             | Resolved _ => [] | Failed message => [message] end).
  intros entry. apply emits_secret.
Qed.

Lemma with_args_emits (init : list string) (body : M unit) a w (s : State) :
  emits body a w ->
  with_args init body s = Returned (init ++ a) (extend s [] w).
Proof.
  intros H. unfold with_args. rewrite H. unfold extend; simpl.
  now rewrite app_nil_r.
Qed.

Lemma emits_appender (m : M unit) a w : emits m a w -> appender m.
Proof.
  intros H. unfold appender. destruct (emits_tokensOf H) as [E1 E2].
  rewrite E1, E2. exact H.
Qed.

Lemma bind_emits (m k : M unit) a w (s : State) :
  emits m a w -> (m ;; k) s = k (extend s a w).
Proof. intros H. unfold bind. now rewrite H. Qed.

Lemma sequence_appenders (blocks : list (M unit)) (k : M unit) :
  Forall appender blocks ->
  forall s,
    sequence blocks k s
    = k (extend s (flat_map tokensOf blocks) (flat_map warningsOf blocks)).
Proof.
  induction 1 as [|m rest Hm _ IH]; intros s; simpl.
  - now rewrite extend_nil.
  - rewrite (bind_emits _ _ Hm), IH. now rewrite extend_extend.
Qed.

Lemma quiet_warnings (blocks : list (M unit)) :
  Forall (fun m => emits m (tokensOf m) []) blocks ->
  flat_map warningsOf blocks = [].
Proof.
  induction 1 as [|m rest Hm _ IH]; simpl; [reflexivity|].
  rewrite IH, (proj2 (emits_tokensOf Hm)). reflexivity.
Qed.

Lemma emits_appender_quiet (m : M unit) a : emits m a [] -> emits m (tokensOf m) [].
Proof.
  intros H. destruct (emits_tokensOf H) as [E1 _]. now rewrite E1.
Qed.

(** ** The blocks of getBuildArgs *)

Section Blocks.

Variable toolkit : Toolkit.
Variable inputs : Inputs.

Lemma addHostArgs_emits :
  emits (addHostArgs inputs) (repeated "--add-host" (addHosts inputs)) [].
Proof. apply emits_repeated. Qed.

Lemma allowArgs_emits :
  emits (allowArgs inputs)
    (if (0 <? List.length (allow inputs))%nat
     then ["--allow"; join "," (allow inputs)] else []) [].
Proof.
  unfold allowArgs.
  destruct (0 <? List.length (allow inputs))%nat; simpl;
    [apply emits_push | apply yields_ret].
Qed.

Lemma annotationArgs_emits :
  emits (annotationArgs toolkit inputs)
    (if buildx_versionSatisfies toolkit ">=0.12.0"
     then repeated "--annotation" (annotations inputs) else [])
    (if buildx_versionSatisfies toolkit ">=0.12.0" then []
     else if (0 <? List.length (annotations inputs))%nat
     then ["Annotations are only supported by buildx >= 0.12.0; the input 'annotations' is ignored."]
     else []).
Proof.
  unfold annotationArgs.
  destruct (buildx_versionSatisfies toolkit ">=0.12.0").
  - apply emits_repeated.
  - destruct (0 <? List.length (annotations inputs))%nat; simpl;
      [apply emits_warning | apply yields_ret].
Qed.

Lemma buildArgArgs_emits :
  emits (buildArgArgs inputs) (repeated "--build-arg" (buildArgs inputs)) [].
Proof. apply emits_repeated. Qed.

Lemma buildContextArgs_emits :
  emits (buildContextArgs toolkit inputs)
    (if buildx_versionSatisfies toolkit ">=0.8.0"
     then repeated "--build-context" (buildContexts inputs) else [])
    (if buildx_versionSatisfies toolkit ">=0.8.0" then []
     else if (0 <? List.length (buildContexts inputs))%nat
     then ["Build contexts are only supported by buildx >= 0.8.0; the input 'build-contexts' is ignored."]
     else []).
Proof.
  unfold buildContextArgs.
  destruct (buildx_versionSatisfies toolkit ">=0.8.0").
  - apply emits_repeated.
  - destruct (0 <? List.length (buildContexts inputs))%nat; simpl;
      [apply emits_warning | apply yields_ret].
Qed.

Lemma cacheFromArgs_emits :
  emits (cacheFromArgs inputs) (repeated "--cache-from" (cacheFrom inputs)) [].
Proof. apply emits_repeated. Qed.

Lemma cacheToArgs_emits :
  emits (cacheToArgs inputs) (repeated "--cache-to" (cacheTo inputs)) [].
Proof. apply emits_repeated. Qed.

Lemma single_emits (value flag : string) :
  emits (when (truthy value) (args_push [flag; value]))
        (if truthy value then [flag; value] else []) [].
Proof.
  destruct (truthy value); simpl; [apply emits_push | apply yields_ret].
Qed.

Lemma cgroupParentArgs_emits :
  emits (cgroupParentArgs inputs)
    (if truthy (cgroupParent inputs)
     then ["--cgroup-parent"; cgroupParent inputs] else []) [].
Proof. apply single_emits. Qed.

Lemma secretEnvArgs_emits :
  emits (secretEnvArgs toolkit inputs)
    (secretFlags (resolveSecretEnv toolkit) (secretEnvs inputs))
    (secretFailures (resolveSecretEnv toolkit) (secretEnvs inputs)).
Proof. apply emits_secrets. Qed.

Lemma fileArgs_emits :
  emits (fileArgs inputs)
    (if truthy (file inputs) then ["--file"; file inputs] else []) [].
Proof. apply single_emits. Qed.

Lemma iidfileArgs_emits :
  emits (iidfileArgs toolkit inputs)
    (if negb (hasLocalExporter toolkit (outputs inputs))
        && negb (hasTarExporter toolkit (outputs inputs))
        && ((List.length (platforms inputs) =? 0)%nat
            || buildx_versionSatisfies toolkit ">=0.4.2")
     then ["--iidfile"; getImageIDFilePath toolkit] else []) [].
Proof.
  unfold iidfileArgs.
  match goal with |- emits (when ?c _) _ _ => destruct c end; simpl;
    [apply emits_push | apply yields_ret].
Qed.

Lemma labelArgs_emits :
  emits (labelArgs inputs) (repeated "--label" (labels inputs)) [].
Proof. apply emits_repeated. Qed.

Lemma noCacheFilterArgs_emits :
  emits (noCacheFilterArgs inputs)
    (repeated "--no-cache-filter" (noCacheFilters inputs)) [].
Proof. apply emits_repeated. Qed.

Lemma outputArgs_emits :
  emits (outputArgs inputs) (repeated "--output" (outputs inputs)) [].
Proof. apply emits_repeated. Qed.

Lemma platformArgs_emits :
  emits (platformArgs inputs)
    (if (0 <? List.length (platforms inputs))%nat
     then ["--platform"; join "," (platforms inputs)] else []) [].
Proof.
  unfold platformArgs.
  destruct (0 <? List.length (platforms inputs))%nat; simpl;
    [apply emits_push | apply yields_ret].
Qed.

Lemma secretArgs_emits :
  emits (secretArgs toolkit inputs)
    (secretFlags (resolveSecretString toolkit) (secrets inputs))
    (secretFailures (resolveSecretString toolkit) (secrets inputs)).
Proof. apply emits_secrets. Qed.

Lemma secretFileArgs_emits :
  emits (secretFileArgs toolkit inputs)
    (secretFlags (resolveSecretFile toolkit) (secretFiles inputs))
    (secretFailures (resolveSecretFile toolkit) (secretFiles inputs)).
Proof. apply emits_secrets. Qed.

Lemma shmSizeArgs_emits :
  emits (shmSizeArgs inputs)
    (if truthy (shmSize inputs) then ["--shm-size"; shmSize inputs] else [])
    [].
Proof. apply single_emits. Qed.

Lemma sshArgs_emits :
  emits (sshArgs inputs) (repeated "--ssh" (ssh inputs)) [].
Proof. apply emits_repeated. Qed.

Lemma tagArgs_emits :
  emits (tagArgs inputs) (repeated "--tag" (tags inputs)) [].
Proof. apply emits_repeated. Qed.

Lemma targetArgs_emits :
  emits (targetArgs inputs)
    (if truthy (target inputs) then ["--target"; target inputs] else []) [].
Proof. apply single_emits. Qed.

Lemma ulimitArgs_emits :
  emits (ulimitArgs inputs) (repeated "--ulimit" (ulimit inputs)) [].
Proof. apply emits_repeated. Qed.

End Blocks.

(** ** getAttestArgs *)

Section Attest.

Variable toolkit : Toolkit.
Variable inputs : Inputs.

Lemma hasAttestProvenance_existsb :
  hasAttestProvenance toolkit inputs
  = existsb (typed toolkit "provenance") (attests inputs).
Proof.
  unfold hasAttestProvenance, typed.
  assert (G : forall l found,
             fold_left
               (fun found attest =>
                  if hasAttestationType toolkit "provenance" attest
                  then true else found) l found
             = found || existsb (hasAttestationType toolkit "provenance") l).
  { induction l as [|a l IH]; intros found; simpl.
    - now rewrite orb_false_r.
    - rewrite IH.
      destruct (hasAttestationType toolkit "provenance" a), found; reflexivity. }
  now rewrite G.
Qed.

Lemma provenanceArgs_yields :
  yields (provenanceArgs toolkit inputs) (truthy (provenance inputs))
         (provenanceTokens toolkit inputs) [].
Proof.
  unfold provenanceArgs, provenanceTokens, defaultProvenanceWanted,
    defaultProvenance.
  destruct (truthy (provenance inputs)).
  - intros st. unfold bind. rewrite emits_push. reflexivity.
  - match goal with |- yields (if ?c then _ else _) _ _ _ => destruct c end.
    + destruct (repositoryPrivate toolkit);
        intros st; unfold bind; rewrite emits_push; reflexivity.
    + apply yields_ret.
Qed.

Lemma sbomArgs_yields :
  yields (sbomArgs toolkit inputs) (truthy (sbom inputs))
         (sbomTokens toolkit inputs) [].
Proof.
  unfold sbomArgs, sbomTokens.
  destruct (truthy (sbom inputs)).
  - intros st. unfold bind. rewrite emits_push. reflexivity.
  - apply yields_ret.
Qed.

Lemma attestEntry_emits (provenanceSet sbomSet : bool) (attest : string) :
  emits (attestEntry toolkit provenanceSet sbomSet attest)
    (if negb (typed toolkit "provenance" attest)
        && negb (typed toolkit "sbom" attest)
     then ["--attest"; resolveAttestationAttrs toolkit attest]
     else if negb provenanceSet && typed toolkit "provenance" attest
     then ["--attest"; resolveProvenanceAttrs toolkit attest]
     else if negb sbomSet && typed toolkit "sbom" attest
     then ["--attest"; attest]
     else [])
    [].
Proof.
  unfold attestEntry, typed.
  repeat match goal with
         | |- emits (if ?c then _ else _) _ _ => destruct c
         end;
    first [apply emits_push | apply yields_ret].
Qed.

Lemma attestEntryTokens_eq (attest : string) :
  attestEntryTokens toolkit inputs attest
  = if negb (typed toolkit "provenance" attest)
       && negb (typed toolkit "sbom" attest)
    then ["--attest"; resolveAttestationAttrs toolkit attest]
    else if negb (truthy (provenance inputs))
            && typed toolkit "provenance" attest
    then ["--attest"; resolveProvenanceAttrs toolkit attest]
    else if negb (truthy (sbom inputs)) && typed toolkit "sbom" attest
    then ["--attest"; attest]
    else [].
Proof.
  unfold attestEntryTokens.
  exact (proj1 (emits_tokensOf (attestEntry_emits _ _ attest))).
Qed.

Lemma flat_map_nil {A B : Type} (l : list A) :
  flat_map (fun _ : A => @nil B) l = [].
Proof. induction l; simpl; auto. Qed.

Lemma attestEntries_emit :
  emits
    (asyncForEach (attests inputs)
       (attestEntry toolkit (truthy (provenance inputs))
          (truthy (sbom inputs))))
    (flat_map (attestEntryTokens toolkit inputs) (attests inputs)) [].
Proof.
  rewrite <- (flat_map_nil (B := string) (attests inputs)).
  apply emits_forEach. intros attest. unfold attestEntryTokens.
  eapply emits_appender_quiet, attestEntry_emits.
Qed.

End Attest.

(** ** The functions as a whole *)

Section Whole.

Variable toolkit : Toolkit.
Variable inputs : Inputs.

(** With collaborators that answer, [getAttestArgs] returns its tokens,
    warns of nothing and leaves the array of its caller alone. *)
Lemma getAttestArgs_returns (s : State) :
  getAttestArgs toolkit inputs s = Returned (attestTokens toolkit inputs) s.
Proof.
  unfold getAttestArgs, attestTokens.
  assert (H : emits
                (provenanceSet <- provenanceArgs toolkit inputs ;;
                 sbomSet <- sbomArgs toolkit inputs ;;
                 asyncForEach (attests inputs)
                   (attestEntry toolkit provenanceSet sbomSet))
                (provenanceTokens toolkit inputs
                 ++ sbomTokens toolkit inputs
                 ++ flat_map (attestEntryTokens toolkit inputs)
                      (attests inputs))
                ([] ++ [] ++ [])).
  { apply yields_bind with (v := truthy (provenance inputs)).
    - apply provenanceArgs_yields.
    - apply yields_bind with (v := truthy (sbom inputs)).
      + apply sbomArgs_yields.
      + apply attestEntries_emit. }
  rewrite (with_args_emits [] s H). simpl. now rewrite extend_nil.
Qed.

Lemma attestArgs_emits :
  emits (attestArgs toolkit inputs)
    (if buildx_versionSatisfies toolkit ">=0.10.0"
     then attestTokens toolkit inputs else [])
    (if buildx_versionSatisfies toolkit ">=0.10.0" then []
     else ["Attestations are only supported by buildx >= 0.10.0; the inputs 'attests', 'provenance' and 'sbom' are ignored."]).
Proof.
  unfold attestArgs.
  destruct (buildx_versionSatisfies toolkit ">=0.10.0").
  - intros s. unfold bind. rewrite getAttestArgs_returns. apply emits_push.
  - apply emits_warning.
Qed.

Lemma blocksBefore_appenders : Forall appender (blocksBefore toolkit inputs).
Proof.
  unfold blocksBefore.
  repeat (apply Forall_cons || apply Forall_nil).
  all: eapply emits_appender.
  - apply addHostArgs_emits.
  - apply allowArgs_emits.
  - apply annotationArgs_emits.
  - apply buildArgArgs_emits.
  - apply buildContextArgs_emits.
  - apply cacheFromArgs_emits.
  - apply cacheToArgs_emits.
  - apply cgroupParentArgs_emits.
  - apply secretEnvArgs_emits.
  - apply fileArgs_emits.
  - apply iidfileArgs_emits.
  - apply labelArgs_emits.
  - apply noCacheFilterArgs_emits.
  - apply outputArgs_emits.
  - apply platformArgs_emits.
  - apply attestArgs_emits.
  - apply secretArgs_emits.
  - apply secretFileArgs_emits.
Qed.

Lemma blocksAfter_quiet :
  Forall (fun m => emits m (tokensOf m) []) (blocksAfter inputs).
Proof.
  unfold blocksAfter.
  repeat (apply Forall_cons || apply Forall_nil).
  all: eapply emits_appender_quiet.
  - apply shmSizeArgs_emits.
  - apply sshArgs_emits.
  - apply tagArgs_emits.
  - apply targetArgs_emits.
  - apply ulimitArgs_emits.
Qed.

Lemma tokensBefore_blocks :
  flat_map tokensOf (blocksBefore toolkit inputs) = tokensBefore toolkit inputs.
Proof.
  unfold blocksBefore, tokensBefore. cbn [flat_map].
  rewrite (proj1 (emits_tokensOf (addHostArgs_emits inputs))),
    (proj1 (emits_tokensOf (allowArgs_emits inputs))),
    (proj1 (emits_tokensOf (annotationArgs_emits toolkit inputs))),
    (proj1 (emits_tokensOf (buildArgArgs_emits inputs))),
    (proj1 (emits_tokensOf (buildContextArgs_emits toolkit inputs))),
    (proj1 (emits_tokensOf (cacheFromArgs_emits inputs))),
    (proj1 (emits_tokensOf (cacheToArgs_emits inputs))),
    (proj1 (emits_tokensOf (cgroupParentArgs_emits inputs))),
    (proj1 (emits_tokensOf (secretEnvArgs_emits toolkit inputs))),
    (proj1 (emits_tokensOf (fileArgs_emits inputs))),
    (proj1 (emits_tokensOf (iidfileArgs_emits toolkit inputs))),
    (proj1 (emits_tokensOf (labelArgs_emits inputs))),
    (proj1 (emits_tokensOf (noCacheFilterArgs_emits inputs))),
    (proj1 (emits_tokensOf (outputArgs_emits inputs))),
    (proj1 (emits_tokensOf (platformArgs_emits inputs))),
    (proj1 (emits_tokensOf attestArgs_emits)),
    (proj1 (emits_tokensOf (secretArgs_emits toolkit inputs))),
    (proj1 (emits_tokensOf (secretFileArgs_emits toolkit inputs))).
  rewrite app_nil_r. reflexivity.
Qed.

Lemma buildWarnings_blocks :
  flat_map warningsOf (blocksBefore toolkit inputs)
  = buildWarnings toolkit inputs.
Proof.
  unfold blocksBefore, buildWarnings. cbn [flat_map].
  rewrite (proj2 (emits_tokensOf (addHostArgs_emits inputs))),
    (proj2 (emits_tokensOf (allowArgs_emits inputs))),
    (proj2 (emits_tokensOf (annotationArgs_emits toolkit inputs))),
    (proj2 (emits_tokensOf (buildArgArgs_emits inputs))),
    (proj2 (emits_tokensOf (buildContextArgs_emits toolkit inputs))),
    (proj2 (emits_tokensOf (cacheFromArgs_emits inputs))),
    (proj2 (emits_tokensOf (cacheToArgs_emits inputs))),
    (proj2 (emits_tokensOf (cgroupParentArgs_emits inputs))),
    (proj2 (emits_tokensOf (secretEnvArgs_emits toolkit inputs))),
    (proj2 (emits_tokensOf (fileArgs_emits inputs))),
    (proj2 (emits_tokensOf (iidfileArgs_emits toolkit inputs))),
    (proj2 (emits_tokensOf (labelArgs_emits inputs))),
    (proj2 (emits_tokensOf (noCacheFilterArgs_emits inputs))),
    (proj2 (emits_tokensOf (outputArgs_emits inputs))),
    (proj2 (emits_tokensOf (platformArgs_emits inputs))),
    (proj2 (emits_tokensOf attestArgs_emits)),
    (proj2 (emits_tokensOf (secretArgs_emits toolkit inputs))),
    (proj2 (emits_tokensOf (secretFileArgs_emits toolkit inputs))).
  cbn [app]. rewrite app_nil_r. reflexivity.
Qed.

Lemma tokensAfter_blocks :
  flat_map tokensOf (blocksAfter inputs) = tokensAfter inputs.
Proof.
  unfold blocksAfter, tokensAfter. cbn [flat_map].
  rewrite (proj1 (emits_tokensOf (shmSizeArgs_emits inputs))),
    (proj1 (emits_tokensOf (sshArgs_emits inputs))),
    (proj1 (emits_tokensOf (tagArgs_emits inputs))),
    (proj1 (emits_tokensOf (targetArgs_emits inputs))),
    (proj1 (emits_tokensOf (ulimitArgs_emits inputs))).
  rewrite app_nil_r. reflexivity.
Qed.

Lemma getBuildArgs_outcome (context : string) (s : State) :
  getBuildArgs toolkit inputs context s
  = if gitAuthTokenWanted toolkit inputs context then
      match resolveSecretString toolkit (gitAuthTokenSecret inputs) with
      | Resolved v =>
          Returned ("build" :: tokensBefore toolkit inputs
                            ++ ["--secret"; v] ++ tokensAfter inputs)
                   (extend s [] (buildWarnings toolkit inputs))
      | Failed e => Thrown e (extend s [] (buildWarnings toolkit inputs))
      end
    else
      Returned ("build" :: tokensBefore toolkit inputs ++ tokensAfter inputs)
               (extend s [] (buildWarnings toolkit inputs)).
Proof.
  assert (T : emits
                (sequence [shmSizeArgs inputs; sshArgs inputs; tagArgs inputs;
                           targetArgs inputs] (ulimitArgs inputs))
                (tokensAfter inputs) []).
  { intros st. pose proof blocksAfter_quiet as Q. unfold blocksAfter in Q.
    repeat match goal with
           | H : Forall _ (_ :: _) |- _ =>
               let H1 := fresh "P" in
               apply Forall_cons_iff in H; destruct H as [H1 H]
           end.
    simpl sequence.
    rewrite (bind_emits _ _ P), (bind_emits _ _ P0), (bind_emits _ _ P1),
      (bind_emits _ _ P2), (P3 _).
    rewrite <- tokensAfter_blocks. unfold blocksAfter. cbn [flat_map].
    rewrite !extend_extend, ?app_nil_r, <- ?app_assoc. reflexivity. }
  change (getBuildArgs toolkit inputs context s)
    with (with_args ["build"]
            (sequence (blocksBefore toolkit inputs)
               (gitAuthTokenArgs toolkit inputs context ;;
                sequence [shmSizeArgs inputs; sshArgs inputs; tagArgs inputs;
                          targetArgs inputs] (ulimitArgs inputs))) s).
  unfold with_args.
  rewrite (sequence_appenders _ blocksBefore_appenders).
  rewrite tokensBefore_blocks, buildWarnings_blocks.
  unfold gitAuthTokenArgs, when, gitAuthTokenSecret.
  destruct (gitAuthTokenWanted toolkit inputs context).
  - destruct (resolveSecretString toolkit _) as [v|e].
    + assert (G : emits (v <- call (Resolved v) ;; args_push ["--secret"; v])
                        ["--secret"; v] [])
        by (intros st; apply emits_push).
      rewrite (bind_emits _ _ G), (T _).
      unfold extend; cbn [args warnings].
      rewrite ?app_nil_r, <- ?app_assoc; reflexivity.
    + unfold bind, call, throw, extend; cbn [args warnings].
      rewrite ?app_nil_r; reflexivity.
  - rewrite (bind_emits _ _ (yields_ret tt)), (T _).
    unfold extend; cbn [args warnings].
    rewrite ?app_nil_r, <- ?app_assoc; reflexivity.
Qed.

Lemma getCommonArgs_returns (s : State) :
  getCommonArgs toolkit inputs s = Returned (commonTokens toolkit inputs) s.
Proof.
  unfold getCommonArgs, commonTokens, single, with_args, when, bind,
    args_push, ret.
  destruct (truthy (builder inputs)), (load inputs),
    (buildx_versionSatisfies toolkit ">=0.6.0"), (truthy (network inputs)),
    (noCache inputs), (pull inputs), (push inputs);
    cbn [args warnings app]; destruct s; reflexivity.
Qed.

Lemma getArgs_outcome (s : State) :
  getArgs toolkit inputs s
  = match getBuildArgs toolkit inputs (expandedContext toolkit inputs) s with
    | Returned build s' =>
        Returned (build ++ commonTokens toolkit inputs
                        ++ [expandedContext toolkit inputs]) s'
    | Thrown e s' => Thrown e s'
    end.
Proof.
  unfold getArgs, bind, expandedContext.
  destruct (getBuildArgs toolkit inputs _ s); [|reflexivity].
  now rewrite getCommonArgs_returns.
Qed.

End Whole.

(** Lists of tokens up to the associativity of [++]. *)
Ltac flatten_apps :=
  repeat first
    [ progress cbn [app] | rewrite <- app_assoc | rewrite app_nil_r ].

(** What [getBuildArgs] returns, when it does, and the warnings given. *)
Lemma getBuildArgs_returned (toolkit : Toolkit) (inputs : Inputs)
    (context : string) (s s' : State) (tokens : list string) :
  getBuildArgs toolkit inputs context s = Returned tokens s' ->
  s' = extend s [] (buildWarnings toolkit inputs)
  /\ exists gitAuthToken,
      tokens = "build" :: tokensBefore toolkit inputs
                       ++ gitAuthToken ++ tokensAfter inputs.
Proof.
  intros H. rewrite getBuildArgs_outcome in H.
  destruct (gitAuthTokenWanted toolkit inputs context);
    [destruct (resolveSecretString toolkit (gitAuthTokenSecret inputs))
       as [v|e]|]; inversion H; subst; split; try reflexivity.
  - now exists ["--secret"; v].
  - now exists [].
Qed.

Lemma tokensBefore_cut (toolkit : Toolkit) (inputs : Inputs) (k : nat) :
  tokensBefore toolkit inputs
  = concat (firstn k (segmentsBefore toolkit inputs))
    ++ concat (skipn k (segmentsBefore toolkit inputs)).
Proof.
  rewrite <- concat_app, firstn_skipn.
  unfold tokensBefore, segmentsBefore. cbn [concat].
  now rewrite app_nil_r.
Qed.

Lemma buildWarnings_cut (toolkit : Toolkit) (inputs : Inputs) (k : nat) :
  buildWarnings toolkit inputs
  = concat (firstn k (warningSegments toolkit inputs))
    ++ concat (skipn k (warningSegments toolkit inputs)).
Proof.
  rewrite <- concat_app, firstn_skipn.
  unfold buildWarnings, warningSegments. cbn [concat].
  now rewrite app_nil_r.
Qed.

Lemma getBuildArgs_warnings_cut (toolkit : Toolkit) (inputs : Inputs)
    (context : string) (s s' : State) (tokens : list string) (k : nat) :
  getBuildArgs toolkit inputs context s = Returned tokens s' ->
  warnings s'
  = warnings s
    ++ concat (firstn k (warningSegments toolkit inputs))
    ++ concat (skipn k (warningSegments toolkit inputs)).
Proof.
  intros H. apply getBuildArgs_returned in H. destruct H as [-> _].
  unfold extend. cbn [warnings].
  now rewrite (buildWarnings_cut toolkit inputs k).
Qed.


(** The tokens returned by [getBuildArgs] are those of the first [k] blocks
    after ["build"], then those of the blocks that follow. *)
Lemma getBuildArgs_cut (toolkit : Toolkit) (inputs : Inputs)
    (context : string) (s s' : State) (tokens : list string) (k : nat) :
  getBuildArgs toolkit inputs context s = Returned tokens s' ->
  exists rest,
    tokens
    = ("build" :: concat (firstn k (segmentsBefore toolkit inputs)))
      ++ concat (skipn k (segmentsBefore toolkit inputs)) ++ rest.
Proof.
  intros H. apply getBuildArgs_returned in H. destruct H as [_ [git ->]].
  exists (git ++ tokensAfter inputs).
  rewrite (tokensBefore_cut toolkit inputs k).
  now rewrite <- app_assoc.
Qed.

(** ** Properties of the emitted tokens *)



Lemma startsWith_app (s p : string) :
  startsWith s p = true <-> exists rest, s = (p ++ rest)%string.
Proof.
  unfold startsWith. revert s.
  induction p as [|c p IH]; intros s; simpl.
  - split; [intros _; now exists s | now destruct s].
  - destruct s as [|d s].
    + split; [discriminate | intros [rest H]; discriminate].
    + simpl. destruct (ascii_dec c d) as [->|N].
      * split.
        -- intros H. apply IH in H. destruct H as [rest ->]. now exists rest.
        -- intros [rest H]. apply IH. exists rest. now inversion H.
      * split; [discriminate | intros [rest H]; inversion H; congruence].
Qed.

Lemma truthy_true (s : string) : truthy s = true <-> s <> "".
Proof.
  unfold truthy. destruct (String.eqb_spec s ""); simpl; split; intros H;
    congruence.
Qed.

Section Attestations.

Variable toolkit : Toolkit.
Variable inputs : Inputs.

(** The entries of [attests] that the last loop keeps when both explicit
    inputs are looked at: an entry that is of type provenance only is
    dropped when [provenance] is set, one of type sbom only when [sbom] is
    set. *)
Lemma attestEntryTokens_provenance (attest : string) :
  truthy (provenance inputs) = true ->
  typed toolkit "provenance" attest = true ->
  attestEntryTokens toolkit inputs attest
  = if negb (truthy (sbom inputs)) && typed toolkit "sbom" attest
    then ["--attest"; attest] else [].
Proof.
  intros Hp Ht. rewrite attestEntryTokens_eq, Hp, Ht. reflexivity.
Qed.

Lemma attestEntryTokens_sbom (attest : string) :
  truthy (sbom inputs) = true ->
  typed toolkit "sbom" attest = true ->
  attestEntryTokens toolkit inputs attest
  = if negb (truthy (provenance inputs)) && typed toolkit "provenance" attest
    then ["--attest"; resolveProvenanceAttrs toolkit attest] else [].
Proof.
  intros Hs Ht. rewrite attestEntryTokens_eq, Hs, Ht.
  rewrite andb_false_r. simpl.
  destruct (negb (truthy (provenance inputs))
            && typed toolkit "provenance" attest); reflexivity.
Qed.

End Attestations.

(** *** Attestation precedence *)

(** C1, as stated, fails: with the explicit provenance [mode=max] and the
    single entry [type=provenance,type=sbom] in [attests], the entry is of
    type provenance and is not skipped by the last loop: its third branch
    (line 260) pushes it as it is, since no explicit sbom is set.  Two
    [--attest] flags of type provenance are returned, one of them the
    list's. *)
Lemma attestation_precedence_counterexample :
  let toolkit :=
    Reference.toolkit (0, 12, 0) (0, 11, 0) [] [] Reference.publicRepository in
  let inputs :=
    Reference.set_provenance "mode=max"
      (Reference.set_attests ["type=provenance,type=sbom"]
         (Reference.inputs ".")) in
  truthy (provenance inputs) = true
  /\ In "type=provenance,type=sbom" (attests inputs)
  /\ typed toolkit "provenance" "type=provenance,type=sbom" = true
  /\ attestEntryTokens toolkit inputs "type=provenance,type=sbom"
     = ["--attest"; "type=provenance,type=sbom"]
  /\ getAttestArgs toolkit inputs Reference.start
     = Returned ["--attest"; "type=provenance,mode=max";
                 "--attest"; "type=provenance,type=sbom"] Reference.start
  /\ List.length
       (filter (typed toolkit "provenance")
          ["type=provenance,mode=max"; "type=provenance,type=sbom"]) = 2.
Proof.
  cbv zeta. repeat split; try reflexivity.
  simpl. now left.
Qed.

(** C1, amended: when the explicit provenance value is set, [getAttestArgs]
    returns first the one [--attest] flag made from it, and the last loop
    skips every entry of [attests] that is of type provenance, but for an
    entry that is also of type sbom while no explicit sbom is set, which the
    sbom branch pushes as it is.  When no entry of type provenance is of that
    kind, the tokens of the list are those of the list without its
    provenance entries.  Likewise, when the explicit sbom value is set,
    [getAttestArgs] returns the provenance tokens, then the one [--attest]
    flag made from the sbom value, and the last loop skips every entry of
    type sbom, but for an entry that is also of type provenance while no
    explicit provenance is set, which the provenance branch pushes.  When
    buildx satisfies [>=0.10.0] these tokens are what [getBuildArgs] returns
    between the platforms and the secrets. *)
Theorem explicit_attestation_precedence
    (toolkit : Toolkit) (inputs : Inputs) (s : State) :
  (truthy (provenance inputs) = true ->
   getAttestArgs toolkit inputs s
   = Returned
       (["--attest";
         resolveAttestationAttrs toolkit
           ("type=provenance," ++ provenance inputs)%string]
        ++ sbomTokens toolkit inputs
        ++ flat_map (attestEntryTokens toolkit inputs) (attests inputs)) s
   /\ (forall attest,
          typed toolkit "provenance" attest = true ->
          attestEntryTokens toolkit inputs attest
          = if negb (truthy (sbom inputs)) && typed toolkit "sbom" attest
            then ["--attest"; attest] else [])
   /\ (forall attest,
          typed toolkit "provenance" attest = true ->
          typed toolkit "sbom" attest = false \/ truthy (sbom inputs) = true ->
          attestEntryTokens toolkit inputs attest = [])
   /\ ((forall attest,
           In attest (attests inputs) ->
           typed toolkit "provenance" attest = true ->
           typed toolkit "sbom" attest = false
           \/ truthy (sbom inputs) = true) ->
       flat_map (attestEntryTokens toolkit inputs) (attests inputs)
       = flat_map (attestEntryTokens toolkit inputs)
           (filter (fun attest => negb (typed toolkit "provenance" attest))
              (attests inputs)))
   /\ (buildx_versionSatisfies toolkit ">=0.10.0" = true ->
       forall context s0 tokens s',
         getBuildArgs toolkit inputs context s0 = Returned tokens s' ->
         exists before after,
           tokens
           = before
             ++ (joined "--platform" (platforms inputs)
                 ++ ["--attest";
                     resolveAttestationAttrs toolkit
                       ("type=provenance," ++ provenance inputs)%string]
                 ++ sbomTokens toolkit inputs
                 ++ flat_map (attestEntryTokens toolkit inputs)
                      (attests inputs)
                 ++ secretFlags (resolveSecretString toolkit)
                      (secrets inputs))
             ++ after))
  /\ (truthy (sbom inputs) = true ->
      getAttestArgs toolkit inputs s
      = Returned
          (provenanceTokens toolkit inputs
           ++ ["--attest";
               resolveAttestationAttrs toolkit
                 ("type=sbom," ++ sbom inputs)%string]
           ++ flat_map (attestEntryTokens toolkit inputs) (attests inputs)) s
      /\ (forall attest,
             typed toolkit "sbom" attest = true ->
             attestEntryTokens toolkit inputs attest
             = if negb (truthy (provenance inputs))
                  && typed toolkit "provenance" attest
               then ["--attest"; resolveProvenanceAttrs toolkit attest]
               else [])
      /\ (forall attest,
             typed toolkit "sbom" attest = true ->
             typed toolkit "provenance" attest = false
             \/ truthy (provenance inputs) = true ->
             attestEntryTokens toolkit inputs attest = [])
      /\ ((forall attest,
              In attest (attests inputs) ->
              typed toolkit "sbom" attest = true ->
              typed toolkit "provenance" attest = false
              \/ truthy (provenance inputs) = true) ->
          flat_map (attestEntryTokens toolkit inputs) (attests inputs)
          = flat_map (attestEntryTokens toolkit inputs)
              (filter (fun attest => negb (typed toolkit "sbom" attest))
                 (attests inputs)))
      /\ (buildx_versionSatisfies toolkit ">=0.10.0" = true ->
          forall context s0 tokens s',
            getBuildArgs toolkit inputs context s0 = Returned tokens s' ->
            exists before after,
              tokens
              = before
                ++ (joined "--platform" (platforms inputs)
                    ++ provenanceTokens toolkit inputs
                    ++ ["--attest";
                        resolveAttestationAttrs toolkit
                          ("type=sbom," ++ sbom inputs)%string]
                    ++ flat_map (attestEntryTokens toolkit inputs)
                         (attests inputs)
                    ++ secretFlags (resolveSecretString toolkit)
                         (secrets inputs))
                ++ after)).
Proof.
  split.
  - intros Hp.
    assert (Exact : forall attest,
               typed toolkit "provenance" attest = true ->
               attestEntryTokens toolkit inputs attest
               = if negb (truthy (sbom inputs))
                    && typed toolkit "sbom" attest
                 then ["--attest"; attest] else []).
    { intros attest Ht.
      exact (attestEntryTokens_provenance toolkit inputs attest Hp Ht). }
    assert (Skipped : forall attest,
               typed toolkit "provenance" attest = true ->
               typed toolkit "sbom" attest = false
               \/ truthy (sbom inputs) = true ->
               attestEntryTokens toolkit inputs attest = []).
    { intros attest Ht [E|E]; rewrite (Exact attest Ht), E;
        [now rewrite andb_false_r | reflexivity]. }
    split; [|split; [exact Exact|split; [exact Skipped|split]]].
    + rewrite getAttestArgs_returns. unfold attestTokens, provenanceTokens.
      now rewrite Hp.
    + intros Hall. induction (attests inputs) as [|a rest IH]; simpl.
      * reflexivity.
      * rewrite IH by (intros b Hb; apply Hall; now right).
        destruct (typed toolkit "provenance" a) eqn:Ht; simpl.
        -- now rewrite (Skipped a Ht (Hall a (or_introl eq_refl) Ht)).
        -- reflexivity.
    + intros Hv context s0 tokens s' H.
      destruct (@getBuildArgs_cut _ _ _ _ _ _ 14 H) as [rest ->].
      exists ("build" :: concat (firstn 14 (segmentsBefore toolkit inputs))).
      exists (secretFlags (resolveSecretFile toolkit) (secretFiles inputs)
              ++ rest).
      generalize (concat (firstn 14 (segmentsBefore toolkit inputs))).
      intros F. unfold segmentsBefore. cbn [skipn concat].
      rewrite Hv. unfold attestTokens, provenanceTokens. rewrite Hp.
      flatten_apps. reflexivity.
  - intros Hs.
    assert (Exact : forall attest,
               typed toolkit "sbom" attest = true ->
               attestEntryTokens toolkit inputs attest
               = if negb (truthy (provenance inputs))
                    && typed toolkit "provenance" attest
                 then ["--attest"; resolveProvenanceAttrs toolkit attest]
                 else []).
    { intros attest Ht.
      exact (attestEntryTokens_sbom toolkit inputs attest Hs Ht). }
    assert (Skipped : forall attest,
               typed toolkit "sbom" attest = true ->
               typed toolkit "provenance" attest = false
               \/ truthy (provenance inputs) = true ->
               attestEntryTokens toolkit inputs attest = []).
    { intros attest Ht [E|E]; rewrite (Exact attest Ht), E;
        [now rewrite andb_false_r | reflexivity]. }
    split; [|split; [exact Exact|split; [exact Skipped|split]]].
    + rewrite getAttestArgs_returns. unfold attestTokens, sbomTokens.
      now rewrite Hs.
    + intros Hall. induction (attests inputs) as [|a rest IH]; simpl.
      * reflexivity.
      * rewrite IH by (intros b Hb; apply Hall; now right).
        destruct (typed toolkit "sbom" a) eqn:Ht; simpl.
        -- now rewrite (Skipped a Ht (Hall a (or_introl eq_refl) Ht)).
        -- reflexivity.
    + intros Hv context s0 tokens s' H.
      destruct (@getBuildArgs_cut _ _ _ _ _ _ 14 H) as [rest ->].
      exists ("build" :: concat (firstn 14 (segmentsBefore toolkit inputs))).
      exists (secretFlags (resolveSecretFile toolkit) (secretFiles inputs)
              ++ rest).
      generalize (concat (firstn 14 (segmentsBefore toolkit inputs))).
      intros F. unfold segmentsBefore. cbn [skipn concat].
      rewrite Hv. unfold attestTokens, sbomTokens. rewrite Hs.
      flatten_apps. reflexivity.
Qed.

(** The explicit provenance [mode=max] and the explicit sbom
    [generator=image] with a list that has an entry of each kind and one of
    both kinds: only the entry that is neither provenance nor sbom is
    kept. *)
Lemma explicit_attestation_precedence_witness :
  let toolkit :=
    Reference.toolkit (0, 12, 0) (0, 11, 0) [] [] Reference.publicRepository in
  let inputs :=
    Reference.set_provenance "mode=max"
      (Reference.set_sbom "generator=image"
         (Reference.set_attests
            ["type=provenance,mode=min"; "type=vex,scope=all"; "type=sbom";
             "type=provenance,type=sbom"]
            (Reference.inputs "."))) in
  getAttestArgs toolkit inputs Reference.start
  = Returned ["--attest"; "type=provenance,mode=max";
              "--attest"; "type=sbom,generator=image";
              "--attest"; "type=vex,scope=all"] Reference.start
  /\ attestEntryTokens toolkit inputs "type=provenance,mode=min" = []
  /\ attestEntryTokens toolkit inputs "type=provenance,type=sbom" = []
  /\ attestEntryTokens toolkit inputs "type=sbom" = [].
Proof.
  cbv zeta.
  pose proof
    (explicit_attestation_precedence
       (Reference.toolkit (0, 12, 0) (0, 11, 0) [] []
          Reference.publicRepository)
       (Reference.set_provenance "mode=max"
          (Reference.set_sbom "generator=image"
             (Reference.set_attests
                ["type=provenance,mode=min"; "type=vex,scope=all"; "type=sbom";
                 "type=provenance,type=sbom"]
                (Reference.inputs "."))))
       Reference.start) as [P S].
  destruct (P eq_refl) as (P1 & _ & P2 & _).
  destruct (S eq_refl) as (_ & _ & S2 & _).
  split; [exact P1 | split; [|split]].
  - exact (P2 "type=provenance,mode=min" eq_refl (or_introl eq_refl)).
  - exact (P2 "type=provenance,type=sbom" eq_refl (or_intror eq_refl)).
  - exact (S2 "type=sbom" eq_refl (or_intror eq_refl)).
Defined.

(** *** Default provenance *)




(** *** The image-ID file *)




(** *** Secrets *)

Lemma secretFlags_length (resolve : string -> Resolution)
    (entries : list string) :
  List.length (secretFlags resolve entries)
  = 2 * List.length (filter (fun entry => resolves (resolve entry)) entries).
Proof.
  induction entries as [|e rest IH]; simpl; [reflexivity|].
  rewrite length_app, IH. destruct (resolve e); simpl; lia.
Qed.

Lemma secretFailures_length (resolve : string -> Resolution)
    (entries : list string) :
  List.length (secretFailures resolve entries)
  = List.length
      (filter (fun entry => negb (resolves (resolve entry))) entries).
Proof.
  induction entries as [|e rest IH]; simpl; [reflexivity|].
  rewrite length_app, IH. destruct (resolve e); simpl; lia.
Qed.

(** C4: each of the three loops over secrets catches the failure of an
    entry and turns it into one warning, the entry giving no token and the
    others their [--secret] flag.  The fourth resolution of a secret, that of
    the synthesized git auth token at line 173, is not inside a [try]: when
    it fails, the failure that the loop of lines 158-164 would have turned
    into a warning for the very same secret makes [getBuildArgs] and
    [getArgs] throw, and no argument is returned at all.  Whenever
    [getBuildArgs] does return, as for a context that is not in the
    repository, the flags of the secrets that resolved are among its tokens,
    those of the environment between the cgroup parent and the file and the
    two others side by side, and the messages of the failures are among its
    warnings, in the order of the three loops. *)
Theorem git_auth_token_secret_unguarded
    (toolkit : Toolkit) (inputs : Inputs) (s : State) (e : string) :
  gitAuthTokenWanted toolkit inputs (expandedContext toolkit inputs) = true ->
  resolveSecretString toolkit (gitAuthTokenSecret inputs) = Failed e ->
  emits (secretEnvArgs toolkit inputs)
    (secretFlags (resolveSecretEnv toolkit) (secretEnvs inputs))
    (secretFailures (resolveSecretEnv toolkit) (secretEnvs inputs))
  /\ emits (secretArgs toolkit inputs)
       (secretFlags (resolveSecretString toolkit) (secrets inputs))
       (secretFailures (resolveSecretString toolkit) (secrets inputs))
  /\ emits (secretFileArgs toolkit inputs)
       (secretFlags (resolveSecretFile toolkit) (secretFiles inputs))
       (secretFailures (resolveSecretFile toolkit) (secretFiles inputs))
  /\ emits
       (secretArgs toolkit
          (Reference.set_secrets [gitAuthTokenSecret inputs] inputs))
       [] [e]
  /\ getBuildArgs toolkit inputs (expandedContext toolkit inputs) s
     = Thrown e (extend s [] (buildWarnings toolkit inputs))
  /\ getArgs toolkit inputs s
     = Thrown e (extend s [] (buildWarnings toolkit inputs))
  /\ (forall tokens s', getArgs toolkit inputs s <> Returned tokens s')
  /\ (forall context s0 tokens s',
         getBuildArgs toolkit inputs context s0 = Returned tokens s' ->
         (exists before after,
             tokens
             = before
               ++ (single "--cgroup-parent" (cgroupParent inputs)
                   ++ secretFlags (resolveSecretEnv toolkit)
                        (secretEnvs inputs)
                   ++ single "--file" (file inputs))
               ++ after)
         /\ (exists before after,
                tokens
                = before
                  ++ (secretFlags (resolveSecretString toolkit)
                        (secrets inputs)
                      ++ secretFlags (resolveSecretFile toolkit)
                           (secretFiles inputs))
                  ++ after)
         /\ warnings s'
            = warnings s0
              ++ concat (firstn 2 (warningSegments toolkit inputs))
              ++ secretFailures (resolveSecretEnv toolkit) (secretEnvs inputs)
              ++ (if buildx_versionSatisfies toolkit ">=0.10.0" then []
                  else [attestationsIgnored])
              ++ secretFailures (resolveSecretString toolkit) (secrets inputs)
              ++ secretFailures (resolveSecretFile toolkit)
                   (secretFiles inputs)).
Proof.
  intros Hw Hf.
  split; [apply secretEnvArgs_emits|].
  split; [apply secretArgs_emits|].
  split; [apply secretFileArgs_emits|].
  assert (B : getBuildArgs toolkit inputs (expandedContext toolkit inputs) s
              = Thrown e (extend s [] (buildWarnings toolkit inputs)))
    by now rewrite getBuildArgs_outcome, Hw, Hf.
  assert (A : getArgs toolkit inputs s
              = Thrown e (extend s [] (buildWarnings toolkit inputs)))
    by now rewrite getArgs_outcome, B.
  split; [|split; [exact B | split; [exact A|]]].
  - pose proof (emits_secrets (resolveSecretString toolkit)
                  [gitAuthTokenSecret inputs]) as E.
    unfold secretFlags, secretFailures in E. cbn [flat_map] in E.
    rewrite Hf in E. exact E.
  - split; [intros tokens s'; rewrite A; discriminate|].
    intros context s0 tokens s' H. split; [|split].
    + destruct (@getBuildArgs_cut _ _ _ _ _ _ 7 H) as [rest ->].
      exists ("build" :: concat (firstn 7 (segmentsBefore toolkit inputs))).
      exists (concat (skipn 10 (segmentsBefore toolkit inputs)) ++ rest).
      generalize (concat (firstn 7 (segmentsBefore toolkit inputs))).
      intros F. unfold segmentsBefore. cbn [skipn concat].
      generalize (attestTokens toolkit inputs). intros T.
      flatten_apps. reflexivity.
    + destruct (@getBuildArgs_cut _ _ _ _ _ _ 16 H) as [rest ->].
      exists ("build" :: concat (firstn 16 (segmentsBefore toolkit inputs))).
      exists rest.
      generalize (concat (firstn 16 (segmentsBefore toolkit inputs))).
      intros F. unfold segmentsBefore. cbn [skipn concat].
      flatten_apps. reflexivity.
    + rewrite (@getBuildArgs_warnings_cut _ _ _ _ _ _ 2 H).
      generalize (concat (firstn 2 (warningSegments toolkit inputs))).
      intros F. unfold warningSegments. cbn [skipn concat].
      flatten_apps. reflexivity.
Qed.

(** The failing input: a [githubToken], the default context, a secret from
    the environment that resolves, and a runner on which the value of a
    secret cannot be written to a file.  The builder throws, although the
    same failure on a plain secret is only a warning. *)
Lemma git_auth_token_secret_unguarded_witness :
  let toolkit :=
    Reference.fullDisk
      (Reference.toolkit (0, 12, 0) (0, 11, 0) [] []
         Reference.publicRepository) in
  let inputs :=
    Reference.set_secretEnvs ["TOKEN=GH_PAT"]
      (Reference.set_githubToken "ghs_token"
         (Reference.inputs "{{defaultContext}}")) in
  emits (secretEnvArgs toolkit inputs) ["--secret"; "id=TOKEN,env=GH_PAT"] []
  /\ emits
       (secretArgs toolkit
          (Reference.set_secrets ["GIT_AUTH_TOKEN=ghs_token"] inputs))
       [] ["ENOSPC: no space left on device, write"]
  /\ getArgs toolkit inputs Reference.start
     = Thrown "ENOSPC: no space left on device, write" Reference.start.
Proof.
  cbv zeta.
  pose proof
    (git_auth_token_secret_unguarded
       (Reference.fullDisk
          (Reference.toolkit (0, 12, 0) (0, 11, 0) [] []
             Reference.publicRepository))
       (Reference.set_secretEnvs ["TOKEN=GH_PAT"]
          (Reference.set_githubToken "ghs_token"
             (Reference.inputs "{{defaultContext}}")))
       Reference.start (e := "ENOSPC: no space left on device, write")
       eq_refl eq_refl) as (E & _ & _ & G & _ & A & _).
  split; [exact E | split; [exact G | exact A]].
Defined.

(** *** The git auth token *)

Lemma gitAuthTokenWanted_iff (toolkit : Toolkit) (inputs : Inputs)
    (context : string) :
  gitAuthTokenWanted toolkit inputs context = true
  <-> githubToken inputs <> ""
      /\ hasGitAuthTokenSecret toolkit (secrets inputs) = false
      /\ exists rest, context = (gitContext toolkit ++ rest)%string.
Proof.
  unfold gitAuthTokenWanted.
  rewrite !andb_true_iff, negb_true_iff, truthy_true, startsWith_app.
  tauto.
Qed.

Lemma gitAuthTokenArgs_emits (toolkit : Toolkit) (inputs : Inputs)
    (context : string) :
  (gitAuthTokenWanted toolkit inputs context = false ->
   emits (gitAuthTokenArgs toolkit inputs context) [] [])
  /\ (forall v,
         gitAuthTokenWanted toolkit inputs context = true ->
         resolveSecretString toolkit (gitAuthTokenSecret inputs) = Resolved v ->
         emits (gitAuthTokenArgs toolkit inputs context) ["--secret"; v] []).
Proof.
  unfold gitAuthTokenArgs, gitAuthTokenSecret. split.
  - intros ->. apply yields_ret.
  - intros v -> ->. intros s. apply emits_push.
Qed.

(** C5, as stated, fails: the context [{{defaultContext}}:docker], a
    subdirectory of the repository, is not the default source-control
    context, and the synthesized secret is pushed all the same, since line
    172 asks that the context start with the default one. *)
Lemma git_auth_token_counterexample :
  let toolkit :=
    Reference.toolkit (0, 12, 0) (0, 11, 0) [] [] Reference.publicRepository in
  let inputs :=
    Reference.set_githubToken "ghs_token"
      (Reference.inputs "{{defaultContext}}:docker") in
  expandedContext toolkit inputs
  = "https://github.com/docker/build-push-action.git#refs/heads/master:docker"
  /\ expandedContext toolkit inputs <> gitContext toolkit
  /\ emits (gitAuthTokenArgs toolkit inputs (expandedContext toolkit inputs))
       ["--secret"; "id=GIT_AUTH_TOKEN,src=/tmp/secrets/GIT_AUTH_TOKEN"] []
  /\ exists before after,
      getArgs toolkit inputs Reference.start
      = Returned
          (before
           ++ ["--secret"; "id=GIT_AUTH_TOKEN,src=/tmp/secrets/GIT_AUTH_TOKEN"]
           ++ after)
          Reference.start.
Proof.
  cbv zeta. split; [reflexivity|]. split; [discriminate|]. split.
  - apply (proj2 (gitAuthTokenArgs_emits _ _ _)); reflexivity.
  - eexists [_; _; _; _; _], _. reflexivity.
Qed.

(** C5, amended: the synthesized secret [GIT_AUTH_TOKEN=<token>] is wanted
    exactly when [githubToken] is not empty, no plain secret already is a git
    auth token, and the resolved context starts with the default
    source-control context (it is that context, or that context followed by
    more, such as a subdirectory).  When it is wanted and resolves, its
    [--secret] flag is pushed, between the flags of the secret files and
    [--shm-size]; when it is not wanted nothing is pushed.  So a context
    equal to the default one gets the flag (given the token and no such
    secret), and a context that does not start with the default one never
    does. *)
Theorem git_auth_token_injection
    (toolkit : Toolkit) (inputs : Inputs) (context : string) :
  (gitAuthTokenWanted toolkit inputs context = true
   <-> githubToken inputs <> ""
       /\ hasGitAuthTokenSecret toolkit (secrets inputs) = false
       /\ exists rest, context = (gitContext toolkit ++ rest)%string)
  /\ (forall v s,
         gitAuthTokenWanted toolkit inputs context = true ->
         resolveSecretString toolkit (gitAuthTokenSecret inputs) = Resolved v ->
         gitAuthTokenArgs toolkit inputs context s
         = Returned tt (extend s ["--secret"; v] [])
         /\ getBuildArgs toolkit inputs context s
            = Returned
                ("build" :: tokensBefore toolkit inputs
                         ++ ["--secret"; v] ++ tokensAfter inputs)
                (extend s [] (buildWarnings toolkit inputs)))
  /\ (forall s,
         gitAuthTokenWanted toolkit inputs context = false ->
         gitAuthTokenArgs toolkit inputs context s = Returned tt s
         /\ getBuildArgs toolkit inputs context s
            = Returned
                ("build" :: tokensBefore toolkit inputs ++ tokensAfter inputs)
                (extend s [] (buildWarnings toolkit inputs)))
  /\ (githubToken inputs <> "" ->
      hasGitAuthTokenSecret toolkit (secrets inputs) = false ->
      gitAuthTokenWanted toolkit inputs (gitContext toolkit) = true)
  /\ (startsWith context (gitContext toolkit) = false ->
      gitAuthTokenWanted toolkit inputs context = false).
Proof.
  split; [apply gitAuthTokenWanted_iff|].
  split; [|split; [|split]].
  - intros v s Hw Hr. split.
    + apply (proj2 (gitAuthTokenArgs_emits toolkit inputs context) v Hw Hr).
    + now rewrite getBuildArgs_outcome, Hw, Hr.
  - intros s Hw. split.
    + rewrite (proj1 (gitAuthTokenArgs_emits toolkit inputs context) Hw s).
      now rewrite extend_nil.
    + now rewrite getBuildArgs_outcome, Hw.
  - intros Ht Hs. apply gitAuthTokenWanted_iff.
    split; [exact Ht|]. split; [exact Hs|].
    exists ""%string. clear. induction (gitContext toolkit); simpl; congruence.
  - intros Hc. unfold gitAuthTokenWanted. rewrite Hc. apply andb_false_r.
Qed.

(** The token [ghs_token] with the default context, with a subdirectory of
    it, and with another repository. *)
Lemma git_auth_token_injection_witness :
  let toolkit :=
    Reference.toolkit (0, 12, 0) (0, 11, 0) [] [] Reference.publicRepository in
  let inputs := Reference.set_githubToken "ghs_token" (Reference.inputs ".") in
  let flag :=
    ["--secret"; "id=GIT_AUTH_TOKEN,src=/tmp/secrets/GIT_AUTH_TOKEN"] in
  gitAuthTokenArgs toolkit inputs (gitContext toolkit) Reference.start
  = Returned tt (extend Reference.start flag [])
  /\ gitAuthTokenArgs toolkit inputs
       (gitContext toolkit ++ ":docker")%string Reference.start
     = Returned tt (extend Reference.start flag [])
  /\ gitAuthTokenArgs toolkit inputs
       "https://github.com/docker/buildx.git#refs/heads/master"
       Reference.start
     = Returned tt Reference.start
  /\ gitAuthTokenArgs toolkit
       (Reference.set_secrets ["GIT_AUTH_TOKEN=ghp_mine"] inputs)
       (gitContext toolkit) Reference.start
     = Returned tt Reference.start.
Proof.
  cbv zeta.
  pose (toolkit :=
          Reference.toolkit (0, 12, 0) (0, 11, 0) [] []
            Reference.publicRepository).
  pose (inputs := Reference.set_githubToken "ghs_token" (Reference.inputs ".")).
  split; [|split; [|split]].
  - exact (proj1 (proj1 (proj2
             (git_auth_token_injection toolkit inputs (gitContext toolkit)))
             "id=GIT_AUTH_TOKEN,src=/tmp/secrets/GIT_AUTH_TOKEN"
             Reference.start eq_refl eq_refl)).
  - exact (proj1 (proj1 (proj2
             (git_auth_token_injection toolkit inputs
                (gitContext toolkit ++ ":docker")%string))
             "id=GIT_AUTH_TOKEN,src=/tmp/secrets/GIT_AUTH_TOKEN"
             Reference.start eq_refl eq_refl)).
  - exact (proj1 (proj1 (proj2 (proj2
             (git_auth_token_injection toolkit inputs
                "https://github.com/docker/buildx.git#refs/heads/master")))
             Reference.start eq_refl)).
  - exact (proj1 (proj1 (proj2 (proj2
             (git_auth_token_injection toolkit
                (Reference.set_secrets ["GIT_AUTH_TOKEN=ghp_mine"] inputs)
                (gitContext toolkit))))
             Reference.start eq_refl)).
Defined.

(** *** Annotations *)



(** *** Repeated flags *)



(** *** Determinism *)

Lemma secretFlags_ext (r1 r2 : string -> Resolution) (entries : list string) :
  (forall entry, In entry entries -> r1 entry = r2 entry) ->
  secretFlags r1 entries = secretFlags r2 entries
  /\ secretFailures r1 entries = secretFailures r2 entries.
Proof.
  intros H. induction entries as [|e rest IH]; simpl; [now split|].
  destruct IH as [IH1 IH2]; [intros; apply H; now right|].
  now rewrite (H e (or_introl eq_refl)), IH1, IH2.
Qed.

Lemma flat_map_ext_in {A B : Type} (f g : A -> list B) (l : list A) :
  (forall a, In a l -> f a = g a) -> flat_map f l = flat_map g l.
Proof.
  intros H. induction l as [|a rest IH]; simpl; [reflexivity|].
  rewrite (H a (or_introl eq_refl)), IH; [reflexivity|].
  intros b Hb. apply H. now right.
Qed.

Lemma existsb_ext_in {A : Type} (f g : A -> bool) (l : list A) :
  (forall a, In a l -> f a = g a) -> existsb f l = existsb g l.
Proof.
  intros H. induction l as [|a rest IH]; simpl; [reflexivity|].
  rewrite (H a (or_introl eq_refl)), IH; [reflexivity|].
  intros b Hb. apply H. now right.
Qed.

Section SameAnswers.

Variables tk1 tk2 : Toolkit.
Variable inputs : Inputs.
Hypothesis same : SameResponses tk1 tk2 inputs.

Lemma same_typed (name attest : string) :
  In name ["provenance"; "sbom"] ->
  In attest (attests inputs) ->
  typed tk1 name attest = typed tk2 name attest.
Proof. apply (same_type same). Qed.

Lemma attestTokens_same : attestTokens tk1 inputs = attestTokens tk2 inputs.
Proof.
  unfold attestTokens. f_equal; [|f_equal].
  - unfold provenanceTokens, defaultProvenanceWanted, defaultProvenance.
    rewrite !hasAttestProvenance_existsb.
    rewrite (existsb_ext_in (typed tk1 "provenance") (typed tk2 "provenance")
               (attests inputs))
      by (intros a Ha; apply same_typed; simpl; auto).
    rewrite (same_buildkit same), (same_docker same), (same_private same).
    rewrite (same_attestationAttrs same
               ("type=provenance," ++ provenance inputs)%string)
      by (simpl; auto).
    rewrite (same_provenanceAttrs same "mode=min,inline-only=true")
      by (simpl; auto).
    rewrite (same_provenanceAttrs same "mode=max") by (simpl; auto).
    reflexivity.
  - unfold sbomTokens.
    rewrite (same_attestationAttrs same ("type=sbom," ++ sbom inputs)%string)
      by (simpl; auto).
    reflexivity.
  - apply flat_map_ext_in. intros a Ha. rewrite !attestEntryTokens_eq.
    rewrite (@same_typed "provenance" a), (@same_typed "sbom" a)
      by (simpl; auto).
    rewrite (same_attestationAttrs same a), (same_provenanceAttrs same a)
      by (simpl; auto).
    reflexivity.
Qed.

Lemma tokensBefore_same : tokensBefore tk1 inputs = tokensBefore tk2 inputs.
Proof.
  unfold tokensBefore, iidfileWanted.
  rewrite (same_buildx same ">=0.12.0"), (same_buildx same ">=0.8.0"),
    (same_buildx same ">=0.4.2"), (same_buildx same ">=0.10.0")
    by (unfold buildxRanges; simpl; auto 6).
  rewrite (same_local same), (same_tar same), (same_iidfile same),
    attestTokens_same.
  rewrite (proj1 (secretFlags_ext _ _ _ (fun e H => same_secretEnv same e H))).
  rewrite (proj1 (secretFlags_ext (resolveSecretString tk1)
                    (resolveSecretString tk2) (secrets inputs)
                    (fun e H => same_secretString same e (or_intror H)))).
  rewrite (proj1 (secretFlags_ext _ _ _
                    (fun e H => same_secretFile same e H))).
  reflexivity.
Qed.

Lemma buildWarnings_same : buildWarnings tk1 inputs = buildWarnings tk2 inputs.
Proof.
  unfold buildWarnings.
  rewrite (same_buildx same ">=0.12.0"), (same_buildx same ">=0.8.0"),
    (same_buildx same ">=0.10.0")
    by (unfold buildxRanges; simpl; auto 6).
  rewrite (proj2 (secretFlags_ext _ _ _
                    (fun e H => same_secretEnv same e H))).
  rewrite (proj2 (secretFlags_ext (resolveSecretString tk1)
                    (resolveSecretString tk2) (secrets inputs)
                    (fun e H => same_secretString same e (or_intror H)))).
  rewrite (proj2 (secretFlags_ext _ _ _
                    (fun e H => same_secretFile same e H))).
  reflexivity.
Qed.

Lemma commonTokens_same : commonTokens tk1 inputs = commonTokens tk2 inputs.
Proof.
  unfold commonTokens.
  rewrite (same_buildx same ">=0.6.0") by (unfold buildxRanges; simpl; auto 6).
  now rewrite (same_metadata same).
Qed.

Lemma getArgs_same (s : State) : getArgs tk1 inputs s = getArgs tk2 inputs s.
Proof.
  rewrite !getArgs_outcome, !getBuildArgs_outcome.
  unfold gitAuthTokenWanted, expandedContext.
  rewrite (same_gitAuthTokenSecret same), (same_template same),
    (same_gitContext same), tokensBefore_same, buildWarnings_same,
    commonTokens_same.
  rewrite (same_secretString same (gitAuthTokenSecret inputs))
    by (simpl; auto).
  reflexivity.
Qed.

End SameAnswers.

Lemma result_getArgs (toolkit : Toolkit) (inputs : Inputs) (s1 s2 : State) :
  result (getArgs toolkit inputs s1) = result (getArgs toolkit inputs s2).
Proof.
  rewrite !getArgs_outcome, !getBuildArgs_outcome.
  destruct (gitAuthTokenWanted toolkit inputs _);
    [destruct (resolveSecretString toolkit _)|]; reflexivity.
Qed.

(** C8: two invocations of [getArgs] with the same configuration, whose
    collaborators give the same answers to the questions asked (version
    checks, resolutions, predicates on the inputs, paths, git context,
    visibility of the repository, expansion of the context), have the same
    outcome: the same tokens, or the same error, and the same warnings;
    and the tokens do not depend on the warnings given before the call. *)
Theorem getArgs_deterministic (tk1 tk2 : Toolkit) (inputs : Inputs) :
  SameResponses tk1 tk2 inputs ->
  (forall s, getArgs tk1 inputs s = getArgs tk2 inputs s)
  /\ (forall s1 s2,
         result (getArgs tk1 inputs s1) = result (getArgs tk2 inputs s2)).
Proof.
  intros same. split.
  - intros s. now apply getArgs_same.
  - intros s1 s2. rewrite (getArgs_same same s1). apply result_getArgs.
Qed.

(** Two runners that differ in what the builder does not ask about (the
    patch versions of buildx and BuildKit, an environment variable and a file
    that no secret names) give the same arguments. *)
Lemma getArgs_deterministic_witness :
  let inputs :=
    Reference.set_secretEnvs ["npm=NPM_TOKEN"; "pat=GH_PAT"]
      (Reference.set_tags ["app:1"]
         (Reference.set_githubToken "ghs_token"
            (Reference.inputs "{{defaultContext}}"))) in
  getArgs
    (Reference.toolkit (0, 12, 0) (0, 11, 0) ["NPM_TOKEN"] []
       Reference.publicRepository)
    inputs Reference.start
  = getArgs
      (Reference.toolkit (0, 13, 1) (0, 12, 3) ["NPM_TOKEN"; "UNUSED"]
         ["./unused.pem"] Reference.publicRepository)
      inputs Reference.start.
Proof.
  cbv zeta.
  refine (proj1 (getArgs_deterministic
                   (tk1 := Reference.toolkit (0, 12, 0) (0, 11, 0)
                             ["NPM_TOKEN"] [] Reference.publicRepository)
                   (tk2 := Reference.toolkit (0, 13, 1) (0, 12, 3)
                             ["NPM_TOKEN"; "UNUSED"] ["./unused.pem"]
                             Reference.publicRepository)
                   (inputs := Reference.set_secretEnvs
                                ["npm=NPM_TOKEN"; "pat=GH_PAT"]
                                (Reference.set_tags ["app:1"]
                                   (Reference.set_githubToken "ghs_token"
                                      (Reference.inputs "{{defaultContext}}"))))
                   _) Reference.start).
  constructor.
  - intros range H. vm_compute in H.
    repeat (destruct H as [<-|H]; [vm_compute; reflexivity|]). destruct H.
  - vm_compute. reflexivity.
  - intros entry H. vm_compute in H.
    repeat (destruct H as [<-|H]; [vm_compute; reflexivity|]). destruct H.
  - intros entry H. vm_compute in H.
    repeat (destruct H as [<-|H]; [vm_compute; reflexivity|]). destruct H.
  - intros entry H. vm_compute in H. destruct H.
  - vm_compute. reflexivity.
  - vm_compute. reflexivity.
  - vm_compute. reflexivity.
  - vm_compute. reflexivity.
  - intros name attest _ H. vm_compute in H. destruct H.
  - intros attrs H. vm_compute in H.
    repeat (destruct H as [<-|H]; [vm_compute; reflexivity|]). destruct H.
  - intros attrs H. vm_compute in H.
    repeat (destruct H as [<-|H]; [vm_compute; reflexivity|]). destruct H.
  - reflexivity.
  - reflexivity.
  - reflexivity.
  - reflexivity.
  - vm_compute. reflexivity.
Defined.

(** *** The sequence as a whole *)



(** *** Secrets from other channels *)

(** C10: the check of line 172 looks at the plain secrets only.  With the
    secret [GIT_AUTH_TOKEN] given through [secret-envs] (and likewise through
    [secret-files]), no plain secret, a [githubToken] and the default
    context, the synthesized secret is injected as well, and two [--secret]
    flags have the id [GIT_AUTH_TOKEN]; whatever the secrets of these two
    channels are, the injection is decided alike. *)
Theorem git_auth_token_duplicated_across_channels :
  (exists toolkit inputs,
      secrets inputs = []
      /\ secretEnvs inputs = ["GIT_AUTH_TOKEN=GH_PAT"]
      /\ githubToken inputs <> ""
      /\ expandedContext toolkit inputs = gitContext toolkit
      /\ gitAuthTokenWanted toolkit inputs (expandedContext toolkit inputs)
         = true
      /\ getArgs toolkit inputs {| args := []; warnings := [] |}
         = Returned
             ["build";
              "--secret"; "id=GIT_AUTH_TOKEN,env=GH_PAT";
              "--iidfile"; getImageIDFilePath toolkit;
              "--attest"; defaultProvenance toolkit;
              "--secret"; "id=GIT_AUTH_TOKEN,src=/tmp/secrets/GIT_AUTH_TOKEN";
              "--metadata-file"; getMetadataFilePath toolkit;
              gitContext toolkit]
             {| args := []; warnings := [] |})
  /\ (exists toolkit inputs,
         secrets inputs = []
         /\ secretFiles inputs = ["GIT_AUTH_TOKEN=./token.txt"]
         /\ githubToken inputs <> ""
         /\ expandedContext toolkit inputs = gitContext toolkit
         /\ gitAuthTokenWanted toolkit inputs (expandedContext toolkit inputs)
            = true
         /\ getArgs toolkit inputs {| args := []; warnings := [] |}
            = Returned
                ["build";
                 "--iidfile"; getImageIDFilePath toolkit;
                 "--attest"; defaultProvenance toolkit;
                 "--secret";
                 "id=GIT_AUTH_TOKEN,src=/tmp/secrets/GIT_AUTH_TOKEN";
                 "--secret";
                 "id=GIT_AUTH_TOKEN,src=/tmp/secrets/GIT_AUTH_TOKEN";
                 "--metadata-file"; getMetadataFilePath toolkit;
                 gitContext toolkit]
                {| args := []; warnings := [] |})
  /\ (forall toolkit inputs envs files context,
         gitAuthTokenWanted toolkit
           (Reference.set_secretEnvs envs
              (Reference.set_secretFiles files inputs)) context
         = gitAuthTokenWanted toolkit inputs context).
Proof.
  split; [|split].
  - exists (Reference.toolkit (0, 12, 0) (0, 11, 0) ["GH_PAT"] []
              Reference.publicRepository).
    exists (Reference.set_secretEnvs ["GIT_AUTH_TOKEN=GH_PAT"]
              (Reference.set_githubToken "ghs_token"
                 (Reference.inputs "{{defaultContext}}"))).
    repeat split; try reflexivity. discriminate.
  - exists (Reference.toolkit (0, 12, 0) (0, 11, 0) [] ["./token.txt"]
              Reference.publicRepository).
    exists (Reference.set_secretFiles ["GIT_AUTH_TOKEN=./token.txt"]
              (Reference.set_githubToken "ghs_token"
                 (Reference.inputs "{{defaultContext}}"))).
    repeat split; try reflexivity. discriminate.
  - reflexivity.
Qed.

(** ** Further properties of the builder *)

(** *** Flags and values go in pairs *)

Lemma Paired_app (names : list string) (a b : list string) :
  Paired names a -> Paired names b -> Paired names (a ++ b).
Proof.
  induction 1 as [|flag value rest Hin _ IH]; intros Hb; simpl.
  - exact Hb.
  - constructor; auto.
Qed.

Lemma Paired_incl (names names' : list string) (l : list string) :
  incl names names' -> Paired names l -> Paired names' l.
Proof.
  intros Hincl. induction 1; constructor; auto.
Qed.

Lemma Paired_length (names : list string) (l : list string) :
  Paired names l -> Nat.even (List.length l) = true.
Proof. induction 1; simpl; auto. Qed.

Lemma Paired_repeated (flag : string) (values : list string) :
  Paired [flag] (repeated flag values).
Proof.
  induction values as [|v rest IH]; simpl; constructor; simpl; auto.
Qed.

Lemma Paired_single (flag value : string) : Paired [flag] (single flag value).
Proof.
  unfold single. destruct (truthy value); repeat constructor.
Qed.

Lemma Paired_joined (flag : string) (values : list string) :
  Paired [flag] (joined flag values).
Proof.
  unfold joined. destruct (0 <? List.length values)%nat; repeat constructor.
Qed.

Lemma Paired_secretFlags (resolve : string -> Resolution)
    (entries : list string) :
  Paired ["--secret"] (secretFlags resolve entries).
Proof.
  induction entries as [|e rest IH]; simpl; [constructor|].
  destruct (resolve e); simpl; [constructor; simpl; auto | exact IH].
Qed.

Lemma Paired_if (names : list string) (c : bool) (l : list string) :
  Paired names l -> Paired names (if c then l else []).
Proof. destruct c; [trivial | constructor]. Qed.

Lemma Paired_attestEntry (toolkit : Toolkit) (inputs : Inputs)
    (attest : string) :
  Paired ["--attest"] (attestEntryTokens toolkit inputs attest)
  /\ List.length (attestEntryTokens toolkit inputs attest) <= 2.
Proof.
  rewrite attestEntryTokens_eq.
  repeat match goal with
         | |- context [if ?c then _ else _] => destruct c
         end; split; simpl; try lia; repeat constructor.
Qed.

Lemma Paired_attestTokens (toolkit : Toolkit) (inputs : Inputs) :
  Paired ["--attest"] (attestTokens toolkit inputs)
  /\ List.length (attestTokens toolkit inputs)
     <= 2 * (2 + List.length (attests inputs)).
Proof.
  unfold attestTokens.
  assert (P : Paired ["--attest"] (provenanceTokens toolkit inputs)
              /\ List.length (provenanceTokens toolkit inputs) <= 2).
  { unfold provenanceTokens.
    destruct (truthy (provenance inputs));
      [|destruct (defaultProvenanceWanted toolkit inputs)];
      split; simpl; try lia; repeat constructor. }
  assert (S : Paired ["--attest"] (sbomTokens toolkit inputs)
              /\ List.length (sbomTokens toolkit inputs) <= 2).
  { unfold sbomTokens. destruct (truthy (sbom inputs));
      split; simpl; try lia; repeat constructor. }
  assert (L : Paired ["--attest"]
                (flat_map (attestEntryTokens toolkit inputs) (attests inputs))
              /\ List.length
                   (flat_map (attestEntryTokens toolkit inputs)
                      (attests inputs))
                 <= 2 * List.length (attests inputs)).
  { induction (attests inputs) as [|a rest [IH1 IH2]]; simpl.
    - split; [constructor | lia].
    - destruct (Paired_attestEntry toolkit inputs a) as [Pa La].
      split; [now apply Paired_app|]. rewrite length_app. lia. }
  destruct P as [P1 P2], S as [S1 S2], L as [L1 L2]. split.
  - repeat apply Paired_app; assumption.
  - rewrite !length_app. lia.
Qed.

Ltac paired_segment :=
  match goal with
  | |- Paired _ (_ ++ _) => apply Paired_app; [paired_segment | paired_segment]
  | |- Paired _ (if _ then _ else []) => apply Paired_if; paired_segment
  | |- Paired _ (repeated ?f _) =>
      apply Paired_incl with (names := [f]);
      [intros x [<-|[]]; unfold buildFlagNames; simpl; tauto
      | apply Paired_repeated]
  | |- Paired _ (single ?f _) =>
      apply Paired_incl with (names := [f]);
      [intros x [<-|[]]; unfold buildFlagNames; simpl; tauto
      | apply Paired_single]
  | |- Paired _ (joined ?f _) =>
      apply Paired_incl with (names := [f]);
      [intros x [<-|[]]; unfold buildFlagNames; simpl; tauto
      | apply Paired_joined]
  | |- Paired _ (secretFlags _ _) =>
      apply Paired_incl with (names := ["--secret"]);
      [intros x [<-|[]]; unfold buildFlagNames; simpl; tauto
      | apply Paired_secretFlags]
  | |- Paired _ (attestTokens _ _) =>
      apply Paired_incl with (names := ["--attest"]);
      [intros x [<-|[]]; unfold buildFlagNames; simpl; tauto
      | apply Paired_attestTokens]
  | |- Paired _ [_; _] =>
      constructor; [unfold buildFlagNames; simpl; tauto | constructor]
  end.

Lemma Paired_tokensBefore (toolkit : Toolkit) (inputs : Inputs) :
  Paired buildFlagNames (tokensBefore toolkit inputs).
Proof. unfold tokensBefore. paired_segment. Qed.

Lemma Paired_tokensAfter (inputs : Inputs) :
  Paired buildFlagNames (tokensAfter inputs).
Proof. unfold tokensAfter. paired_segment. Qed.

(** X1: what [getBuildArgs] returns is ["build"] followed by pairs, each a
    flag of [buildFlagNames] and its value: the number of tokens is odd, and
    an input that looks like a flag can only stand where a value stands. *)
Theorem getBuildArgs_flag_value_pairs
    (toolkit : Toolkit) (inputs : Inputs) (context : string)
    (s s' : State) (tokens : list string) :
  getBuildArgs toolkit inputs context s = Returned tokens s' ->
  exists rest,
    tokens = "build" :: rest
    /\ Paired buildFlagNames rest
    /\ Nat.odd (List.length tokens) = true.
Proof.
  intros H. rewrite getBuildArgs_outcome in H.
  assert (P : forall middle,
             Paired buildFlagNames middle ->
             Paired buildFlagNames
               (tokensBefore toolkit inputs ++ middle ++ tokensAfter inputs)).
  { intros middle Hm.
    apply Paired_app; [apply Paired_tokensBefore|].
    apply Paired_app; [exact Hm | apply Paired_tokensAfter]. }
  assert (F : forall rest,
             Paired buildFlagNames rest ->
             exists rest',
               "build" :: rest = "build" :: rest'
               /\ Paired buildFlagNames rest'
               /\ Nat.odd (List.length ("build" :: rest)) = true).
  { intros rest Hr. exists rest. split; [reflexivity|]. split; [exact Hr|].
    cbn [List.length]. rewrite Nat.odd_succ. now apply Paired_length in Hr. }
  destruct (gitAuthTokenWanted toolkit inputs context);
    [destruct (resolveSecretString toolkit (gitAuthTokenSecret inputs))
       as [v|e]|]; inversion H; subst.
  - apply F. apply (P ["--secret"; v]).
    constructor; [unfold buildFlagNames; simpl; tauto | constructor].
  - apply F. apply (P []). constructor.
Qed.

(** A tag that looks like a flag stays in the place of a value. *)
Lemma getBuildArgs_flag_value_pairs_witness :
  exists rest,
    ["build"; "--iidfile"; "/tmp/docker-actions-toolkit/iidfile";
     "--attest";
     "type=provenance,mode=max,builder-id=https://github.com/docker/build-push-action/actions/runs/123";
     "--tag"; "--push"]
    = "build" :: rest
    /\ Paired buildFlagNames rest
    /\ Nat.odd 7 = true.
Proof.
  exact (@getBuildArgs_flag_value_pairs
           (Reference.toolkit (0, 12, 0) (0, 11, 0) [] []
              Reference.publicRepository)
           (Reference.set_tags ["--push"] (Reference.inputs "."))
           "." Reference.start Reference.start _ eq_refl).
Defined.

(** X2: whenever [getAttestArgs] returns, it has given no warning, and what
    it returns is made of pairs [--attest value], at most one for the
    provenance, one for the sbom and one per entry of [attests]; when buildx
    satisfies [>=0.10.0], [getBuildArgs] returns these tokens as they are,
    one after the other. *)
Theorem getAttestArgs_pairs
    (toolkit : Toolkit) (inputs : Inputs) (s s' : State)
    (tokens : list string) :
  getAttestArgs toolkit inputs s = Returned tokens s' ->
  s' = s
  /\ Paired ["--attest"] tokens
  /\ List.length tokens <= 2 * (2 + List.length (attests inputs))
  /\ (buildx_versionSatisfies toolkit ">=0.10.0" = true ->
      forall context s0 built s1,
        getBuildArgs toolkit inputs context s0 = Returned built s1 ->
        exists before after, built = before ++ tokens ++ after).
Proof.
  intros H. rewrite getAttestArgs_returns in H. inversion H; subst.
  split; [reflexivity|].
  split; [apply Paired_attestTokens|].
  split; [apply Paired_attestTokens|].
  intros Hv context s0 built s1 B.
  destruct (@getBuildArgs_cut _ _ _ _ _ _ 15 B) as [rest ->].
  exists ("build" :: concat (firstn 15 (segmentsBefore toolkit inputs))).
  exists (secretFlags (resolveSecretString toolkit) (secrets inputs)
          ++ secretFlags (resolveSecretFile toolkit) (secretFiles inputs)
          ++ rest).
  generalize (concat (firstn 15 (segmentsBefore toolkit inputs))).
  intros F. unfold segmentsBefore. cbn [skipn concat]. rewrite Hv.
  generalize (attestTokens toolkit inputs). intros A.
  flatten_apps. reflexivity.
Qed.

(** An explicit sbom with the default provenance: two pairs. *)
Lemma getAttestArgs_pairs_witness :
  Paired ["--attest"]
    ["--attest";
     "type=provenance,mode=max,builder-id=https://github.com/docker/build-push-action/actions/runs/123";
     "--attest"; "type=sbom,generator=image"].
Proof.
  exact (proj1 (proj2 (@getAttestArgs_pairs
           (Reference.toolkit (0, 12, 0) (0, 11, 0) [] []
              Reference.publicRepository)
           (Reference.set_sbom "generator=image" (Reference.inputs "."))
           Reference.start Reference.start _ eq_refl))).
Defined.

(** *** Other version gates *)

(** X3: when buildx satisfies [>=0.8.0] every build context gives one
    [--build-context] flag, in the order of the input, and no warning; when
    it does not, no flag is pushed, and one warning is given if the list is
    not empty, none if it is empty.  In what [getBuildArgs] returns the build
    contexts stand between the build arguments and the cache sources, and
    the warning, if any, comes right after that of the annotations. *)
Theorem build_context_version_gating (toolkit : Toolkit) (inputs : Inputs) :
  (buildx_versionSatisfies toolkit ">=0.8.0" = true ->
   emits (buildContextArgs toolkit inputs)
     (repeated "--build-context" (buildContexts inputs)) [])
  /\ (buildx_versionSatisfies toolkit ">=0.8.0" = false ->
      buildContexts inputs <> [] ->
      emits (buildContextArgs toolkit inputs) [] [buildContextsIgnored])
  /\ (buildx_versionSatisfies toolkit ">=0.8.0" = false ->
      buildContexts inputs = [] ->
      emits (buildContextArgs toolkit inputs) [] [])
  /\ (forall context s tokens s',
         getBuildArgs toolkit inputs context s = Returned tokens s' ->
         (exists before after,
             tokens
             = before
               ++ (repeated "--build-arg" (buildArgs inputs)
                   ++ (if buildx_versionSatisfies toolkit ">=0.8.0"
                       then repeated "--build-context" (buildContexts inputs)
                       else [])
                   ++ repeated "--cache-from" (cacheFrom inputs))
               ++ after)
         /\ warnings s'
            = warnings s
              ++ concat (firstn 1 (warningSegments toolkit inputs))
              ++ (if buildx_versionSatisfies toolkit ">=0.8.0" then []
                  else if (0 <? List.length (buildContexts inputs))%nat
                  then [buildContextsIgnored] else [])
              ++ concat (skipn 2 (warningSegments toolkit inputs))).
Proof.
  pose proof (buildContextArgs_emits toolkit inputs) as E.
  split; [|split; [|split]].
  - intros Hv. now rewrite Hv in E.
  - intros Hv Hne. rewrite Hv in E.
    destruct (buildContexts inputs); [congruence | exact E].
  - intros Hv He. rewrite Hv, He in E. exact E.
  - intros context s tokens s' H. split.
    + destruct (@getBuildArgs_cut _ _ _ _ _ _ 3 H) as [rest ->].
      exists ("build" :: concat (firstn 3 (segmentsBefore toolkit inputs))).
      exists (concat (skipn 6 (segmentsBefore toolkit inputs)) ++ rest).
      generalize (concat (firstn 3 (segmentsBefore toolkit inputs))).
      intros F. unfold segmentsBefore. cbn [skipn concat].
      flatten_apps. reflexivity.
    + rewrite (@getBuildArgs_warnings_cut _ _ _ _ _ _ 1 H).
      reflexivity.
Qed.

(** buildx 0.7.0 with a build context: no flag, and the warning. *)
Lemma build_context_version_gating_witness :
  emits
    (buildContextArgs
       (Reference.toolkit (0, 7, 0) (0, 11, 0) [] [] Reference.publicRepository)
       (getInputs
          (Reference.action
             [("build-contexts", "alpine=docker-image://alpine:3.19")])
          (Reference.toolkit (0, 7, 0) (0, 11, 0) [] []
             Reference.publicRepository)))
    [] [buildContextsIgnored].
Proof.
  refine (proj1 (proj2 (build_context_version_gating
            (Reference.toolkit (0, 7, 0) (0, 11, 0) [] []
               Reference.publicRepository)
            (getInputs
               (Reference.action
                  [("build-contexts", "alpine=docker-image://alpine:3.19")])
               (Reference.toolkit (0, 7, 0) (0, 11, 0) [] []
                  Reference.publicRepository)))) eq_refl _).
  discriminate.
Defined.

(** X4: when buildx does not satisfy [>=0.10.0] no attestation is pushed,
    and the warning that [attests], [provenance] and [sbom] are ignored is
    given whatever these inputs are, also when none of them is set; when it
    does, the tokens of [getAttestArgs] are pushed and no warning is
    given. *)
Theorem attestations_version_gating (toolkit : Toolkit) (inputs : Inputs) :
  (buildx_versionSatisfies toolkit ">=0.10.0" = false ->
   emits (attestArgs toolkit inputs) [] [attestationsIgnored]
   /\ forall context s,
       In attestationsIgnored
         (warnings (stateOf (getBuildArgs toolkit inputs context s))))
  /\ (buildx_versionSatisfies toolkit ">=0.10.0" = true ->
      emits (attestArgs toolkit inputs) (attestTokens toolkit inputs) []).
Proof.
  pose proof (attestArgs_emits toolkit inputs) as E.
  split.
  - intros Hv. rewrite Hv in E. split; [exact E|].
    intros context s. rewrite getBuildArgs_outcome.
    assert (W : In attestationsIgnored (buildWarnings toolkit inputs)).
    { unfold buildWarnings. rewrite Hv.
      rewrite !in_app_iff. right. right. right. left. now left. }
    destruct (gitAuthTokenWanted toolkit inputs context);
      [destruct (resolveSecretString toolkit (gitAuthTokenSecret inputs))|];
      simpl; rewrite in_app_iff; now right.
  - intros Hv. now rewrite Hv in E.
Qed.

(** buildx 0.9.1 and no attestation input at all: the warning is given. *)
Lemma attestations_version_gating_witness :
  emits
    (attestArgs
       (Reference.toolkit (0, 9, 1) (0, 11, 0) [] [] Reference.publicRepository)
       (Reference.inputs "."))
    [] [attestationsIgnored].
Proof.
  exact (proj1 (proj1 (attestations_version_gating
           (Reference.toolkit (0, 9, 1) (0, 11, 0) [] []
              Reference.publicRepository)
           (Reference.inputs ".")) eq_refl)).
Defined.

(** *** getCommonArgs *)

(** X5: whenever [getCommonArgs] returns, it has given no warning, also when
    [--metadata-file] is left out because buildx does not satisfy [>=0.6.0].
    Its tokens, at most ten, are the builder, [--load], the metadata file,
    the network, [--no-cache], [--pull] and [--push], in this order; they
    depend on no other input; and in what [getArgs] returns they stand just
    before the context, the last token. *)
Theorem getCommonArgs_silent
    (toolkit : Toolkit) (inputs : Inputs) (s s' : State)
    (tokens : list string) :
  getCommonArgs toolkit inputs s = Returned tokens s' ->
  s' = s
  /\ tokens
     = single "--builder" (builder inputs)
       ++ (if load inputs then ["--load"] else [])
       ++ (if buildx_versionSatisfies toolkit ">=0.6.0"
           then ["--metadata-file"; getMetadataFilePath toolkit] else [])
       ++ single "--network" (network inputs)
       ++ (if noCache inputs then ["--no-cache"] else [])
       ++ (if pull inputs then ["--pull"] else [])
       ++ (if push inputs then ["--push"] else [])
  /\ List.length tokens <= 10
  /\ (forall inputs',
         builder inputs' = builder inputs ->
         load inputs' = load inputs ->
         network inputs' = network inputs ->
         noCache inputs' = noCache inputs ->
         pull inputs' = pull inputs ->
         push inputs' = push inputs ->
         getCommonArgs toolkit inputs' s = getCommonArgs toolkit inputs s)
  /\ (forall s0 all s1,
         getArgs toolkit inputs s0 = Returned all s1 ->
         exists build,
           all = build ++ tokens ++ [expandedContext toolkit inputs]).
Proof.
  intros H. rewrite getCommonArgs_returns in H. inversion H; subst.
  split; [reflexivity|]. split; [reflexivity|]. split; [|split].
  - unfold commonTokens, single.
    destruct (truthy (builder inputs)), (load inputs),
      (buildx_versionSatisfies toolkit ">=0.6.0"), (truthy (network inputs)),
      (noCache inputs), (pull inputs), (push inputs); simpl; lia.
  - intros inputs' Hb Hl Hn Hc Hp Hq. rewrite !getCommonArgs_returns.
    unfold commonTokens. now rewrite Hb, Hl, Hn, Hc, Hp, Hq.
  - intros s0 all s1 A. rewrite getArgs_outcome in A.
    destruct (getBuildArgs toolkit inputs (expandedContext toolkit inputs) s0)
      as [build s2|e s2]; inversion A; subst.
    now exists build.
Qed.

(** buildx 0.5.1 with [push]: no metadata file, no warning. *)
Lemma getCommonArgs_silent_witness :
  {| args := []; warnings := [] |} = Reference.start
  /\ ["--push"] = ["--push"].
Proof.
  pose proof (@getCommonArgs_silent
                (Reference.toolkit (0, 5, 1) (0, 11, 0) [] []
                   Reference.publicRepository)
                (Reference.set_push true (Reference.inputs "."))
                Reference.start {| args := []; warnings := [] |} ["--push"]
                eq_refl) as (S & T & _).
  split; [exact S | exact T].
Defined.

(** *** The other lists and the single values *)

(** X6: each of the lists cache-from, cache-to, no-cache-filters and outputs
    gives two tokens per entry, the name of its flag followed by the entry,
    in the order of the list; the outputs are pushed whatever exporter they
    name.  In what [getBuildArgs] returns the cache sources and targets
    follow the build contexts, and the cache filters and the outputs stand
    between the labels and the platforms. *)
Theorem cache_and_output_flags (toolkit : Toolkit) (inputs : Inputs) :
  emits (cacheFromArgs inputs) (repeated "--cache-from" (cacheFrom inputs)) []
  /\ emits (cacheToArgs inputs) (repeated "--cache-to" (cacheTo inputs)) []
  /\ emits (noCacheFilterArgs inputs)
       (repeated "--no-cache-filter" (noCacheFilters inputs)) []
  /\ emits (outputArgs inputs) (repeated "--output" (outputs inputs)) []
  /\ (forall context s tokens s',
         getBuildArgs toolkit inputs context s = Returned tokens s' ->
         (exists before after,
             tokens
             = before
               ++ ((if buildx_versionSatisfies toolkit ">=0.8.0"
                    then repeated "--build-context" (buildContexts inputs)
                    else [])
                   ++ repeated "--cache-from" (cacheFrom inputs)
                   ++ repeated "--cache-to" (cacheTo inputs)
                   ++ single "--cgroup-parent" (cgroupParent inputs))
               ++ after)
         /\ (exists before after,
                tokens
                = before
                  ++ (repeated "--label" (labels inputs)
                      ++ repeated "--no-cache-filter" (noCacheFilters inputs)
                      ++ repeated "--output" (outputs inputs)
                      ++ joined "--platform" (platforms inputs))
                  ++ after)).
Proof.
  split; [apply cacheFromArgs_emits|].
  split; [apply cacheToArgs_emits|].
  split; [apply noCacheFilterArgs_emits|].
  split; [apply outputArgs_emits|].
  intros context s tokens s' H. split.
  - destruct (@getBuildArgs_cut _ _ _ _ _ _ 4 H) as [rest ->].
    exists ("build" :: concat (firstn 4 (segmentsBefore toolkit inputs))).
    exists (concat (skipn 8 (segmentsBefore toolkit inputs)) ++ rest).
    generalize (concat (firstn 4 (segmentsBefore toolkit inputs))).
    intros F. unfold segmentsBefore. cbn [skipn concat].
    flatten_apps. reflexivity.
  - destruct (@getBuildArgs_cut _ _ _ _ _ _ 11 H) as [rest ->].
    exists ("build" :: concat (firstn 11 (segmentsBefore toolkit inputs))).
    exists (concat (skipn 15 (segmentsBefore toolkit inputs)) ++ rest).
    generalize (concat (firstn 11 (segmentsBefore toolkit inputs))).
    intros F. unfold segmentsBefore. cbn [skipn concat].
    generalize (attestTokens toolkit inputs). intros A.
    flatten_apps. reflexivity.
Qed.

(** A cache source and an output of type registry. *)
Lemma cache_and_output_flags_witness :
  exists before after,
    ["build"; "--cache-from"; "type=gha";
     "--iidfile"; "/tmp/docker-actions-toolkit/iidfile";
     "--output"; "type=registry";
     "--attest";
     "type=provenance,mode=max,builder-id=https://github.com/docker/build-push-action/actions/runs/123"]
    = before ++ ["--output"; "type=registry"] ++ after.
Proof.
  exact (proj2 (proj2 (proj2 (proj2 (proj2 (cache_and_output_flags
           (Reference.toolkit (0, 12, 0) (0, 11, 0) [] []
              Reference.publicRepository)
           (Reference.set_outputs ["type=registry"]
              (getInputs
                 (Reference.action [("cache-from", "type=gha")])
                 (Reference.toolkit (0, 12, 0) (0, 11, 0) [] []
                    Reference.publicRepository)))))))
           "." Reference.start _ Reference.start eq_refl)).
Defined.

(** X7: the cgroup parent, the file, the shm size and the target give their
    flag and their value when they are not empty and nothing when they are:
    none of these four flags is ever pushed with an empty value.  In what
    [getBuildArgs] returns the cgroup parent follows the cache targets, the
    file stands between the secrets of the environment and the image-ID
    file, and the shm size, the ssh agents, the tags, the target and the
    ulimits are the last tokens, in this order. *)
Theorem single_value_flags (toolkit : Toolkit) (inputs : Inputs) :
  emits (cgroupParentArgs inputs)
    (single "--cgroup-parent" (cgroupParent inputs)) []
  /\ emits (fileArgs inputs) (single "--file" (file inputs)) []
  /\ emits (shmSizeArgs inputs) (single "--shm-size" (shmSize inputs)) []
  /\ emits (targetArgs inputs) (single "--target" (target inputs)) []
  /\ (forall flag value,
         (value = "" /\ single flag value = [])
         \/ (value <> "" /\ single flag value = [flag; value]))
  /\ (forall context s tokens s',
         getBuildArgs toolkit inputs context s = Returned tokens s' ->
         (exists before after,
             tokens
             = before
               ++ (repeated "--cache-to" (cacheTo inputs)
                   ++ single "--cgroup-parent" (cgroupParent inputs)
                   ++ secretFlags (resolveSecretEnv toolkit)
                        (secretEnvs inputs)
                   ++ single "--file" (file inputs)
                   ++ (if iidfileWanted toolkit inputs
                       then ["--iidfile"; getImageIDFilePath toolkit]
                       else []))
               ++ after)
         /\ (exists before,
                tokens
                = before
                  ++ single "--shm-size" (shmSize inputs)
                  ++ repeated "--ssh" (ssh inputs)
                  ++ repeated "--tag" (tags inputs)
                  ++ single "--target" (target inputs)
                  ++ repeated "--ulimit" (ulimit inputs))).
Proof.
  split; [apply cgroupParentArgs_emits|].
  split; [apply fileArgs_emits|].
  split; [apply shmSizeArgs_emits|].
  split; [apply targetArgs_emits|].
  split.
  - intros flag value. unfold single.
    destruct (truthy value) eqn:T.
    + right. split; [now apply truthy_true | reflexivity].
    + left. split; [|reflexivity].
      unfold truthy in T. apply negb_false_iff in T.
      now apply String.eqb_eq in T.
  - intros context s tokens s' H. split.
    + destruct (@getBuildArgs_cut _ _ _ _ _ _ 6 H) as [rest ->].
      exists ("build" :: concat (firstn 6 (segmentsBefore toolkit inputs))).
      exists (concat (skipn 11 (segmentsBefore toolkit inputs)) ++ rest).
      generalize (concat (firstn 6 (segmentsBefore toolkit inputs))).
      intros F. unfold segmentsBefore. cbn [skipn concat].
      generalize (attestTokens toolkit inputs). intros A.
      flatten_apps. reflexivity.
    + apply getBuildArgs_returned in H. destruct H as [_ [git ->]].
      exists ("build" :: tokensBefore toolkit inputs ++ git).
      unfold tokensAfter.
      generalize (tokensBefore toolkit inputs). intros B.
      flatten_apps. reflexivity.
Qed.

(** A file and a target, with a tag between them. *)
Lemma single_value_flags_witness :
  exists before,
    ["build"; "--file"; "docker/Dockerfile";
     "--iidfile"; "/tmp/docker-actions-toolkit/iidfile";
     "--attest";
     "type=provenance,mode=max,builder-id=https://github.com/docker/build-push-action/actions/runs/123";
     "--tag"; "app:1"; "--target"; "release"]
    = before ++ ["--tag"; "app:1"; "--target"; "release"].
Proof.
  exact (proj2 (proj2 (proj2 (proj2 (proj2 (proj2 (single_value_flags
           (Reference.toolkit (0, 12, 0) (0, 11, 0) [] []
              Reference.publicRepository)
           (Reference.set_tags ["app:1"]
              (getInputs
                 (Reference.action
                    [("file", "docker/Dockerfile"); ("target", "release");
                     ("context", ".")])
                 (Reference.toolkit (0, 12, 0) (0, 11, 0) [] []
                    Reference.publicRepository))))))))
           "." Reference.start _ Reference.start eq_refl)).
Defined.

(** *** Lists joined with commas *)

(** X8: the allow list and the platforms give a single flag, followed by the
    entries joined with commas, when the list is not empty, and nothing when
    it is.  In what [getBuildArgs] returns the allow list follows the hosts
    and the platforms follow the outputs. *)
Theorem joined_flags (toolkit : Toolkit) (inputs : Inputs) :
  emits (allowArgs inputs) (joined "--allow" (allow inputs)) []
  /\ emits (platformArgs inputs) (joined "--platform" (platforms inputs)) []
  /\ (forall flag, joined flag [] = [])
  /\ (forall flag values,
         values <> [] -> joined flag values = [flag; join "," values])
  /\ (forall context s tokens s',
         getBuildArgs toolkit inputs context s = Returned tokens s' ->
         (exists after,
             tokens
             = "build" :: repeated "--add-host" (addHosts inputs)
                       ++ joined "--allow" (allow inputs) ++ after)
         /\ (exists before after,
                tokens
                = before
                  ++ (repeated "--output" (outputs inputs)
                      ++ joined "--platform" (platforms inputs))
                  ++ after)).
Proof.
  split; [apply allowArgs_emits|].
  split; [apply platformArgs_emits|].
  split; [reflexivity|].
  split; [intros flag [|v rest] H; [congruence | reflexivity]|].
  intros context s tokens s' H. split.
  - destruct (@getBuildArgs_cut _ _ _ _ _ _ 2 H) as [rest ->].
    exists (concat (skipn 2 (segmentsBefore toolkit inputs)) ++ rest).
    generalize (concat (skipn 2 (segmentsBefore toolkit inputs))).
    intros F. unfold segmentsBefore. cbn [firstn concat].
    flatten_apps. reflexivity.
  - destruct (@getBuildArgs_cut _ _ _ _ _ _ 13 H) as [rest ->].
    exists ("build" :: concat (firstn 13 (segmentsBefore toolkit inputs))).
    exists (concat (skipn 15 (segmentsBefore toolkit inputs)) ++ rest).
    generalize (concat (firstn 13 (segmentsBefore toolkit inputs))).
    intros F. unfold segmentsBefore. cbn [skipn concat].
    generalize (attestTokens toolkit inputs). intros A.
    flatten_apps. reflexivity.
Qed.

(** Two platforms given on one line, with buildx 0.4.1: one flag, and no
    image-ID file. *)
Lemma joined_flags_witness :
  exists before after,
    ["build"; "--platform"; "linux/amd64,linux/arm64"]
    = before ++ ["--platform"; "linux/amd64,linux/arm64"] ++ after.
Proof.
  pose proof (proj2 (proj2 (proj2 (proj2 (proj2 (joined_flags
           (Reference.toolkit (0, 4, 1) (0, 11, 0) [] []
              Reference.publicRepository)
           (getInputs
              (Reference.action [("platforms", "linux/amd64,linux/arm64")])
              (Reference.toolkit (0, 4, 1) (0, 11, 0) [] []
                 Reference.publicRepository))))))
           "." Reference.start
           ["build"; "--platform"; "linux/amd64,linux/arm64"]
           _ eq_refl)) as H.
  exact H.
Defined.

(** *** Provenance from the list, and no provenance *)

(** X9: with no explicit provenance and an entry of type provenance in
    [attests], the scan of lines 223-228 finds it, no default provenance is
    added, and every entry of type provenance is pushed after
    [Build.resolveProvenanceAttrs], whatever the sbom input. *)
Theorem listed_provenance (toolkit : Toolkit) (inputs : Inputs) (s : State) :
  truthy (provenance inputs) = false ->
  (exists attest,
      In attest (attests inputs)
      /\ typed toolkit "provenance" attest = true) ->
  hasAttestProvenance toolkit inputs = true
  /\ getAttestArgs toolkit inputs s
     = Returned
         (sbomTokens toolkit inputs
          ++ flat_map (attestEntryTokens toolkit inputs) (attests inputs)) s
  /\ forall attest,
      typed toolkit "provenance" attest = true ->
      attestEntryTokens toolkit inputs attest
      = ["--attest"; resolveProvenanceAttrs toolkit attest].
Proof.
  intros Hp [a [Hin Ht]].
  assert (F : hasAttestProvenance toolkit inputs = true).
  { rewrite hasAttestProvenance_existsb. apply existsb_exists. now exists a. }
  split; [exact F|]. split.
  - rewrite getAttestArgs_returns.
    unfold attestTokens, provenanceTokens, defaultProvenanceWanted.
    now rewrite Hp, F.
  - intros attest Hta. now rewrite attestEntryTokens_eq, Hp, Hta.
Qed.

(** The entry [type=provenance,mode=min] is kept, with the builder id that
    the resolution adds, and no default comes with it. *)
Lemma listed_provenance_witness :
  getAttestArgs
    (Reference.toolkit (0, 12, 0) (0, 11, 0) [] [] Reference.publicRepository)
    (Reference.set_attests ["type=provenance,mode=min"] (Reference.inputs "."))
    Reference.start
  = Returned
      ["--attest";
       "type=provenance,mode=min,builder-id=https://github.com/docker/build-push-action/actions/runs/123"]
      Reference.start.
Proof.
  refine (proj1 (proj2 (listed_provenance
            (Reference.toolkit (0, 12, 0) (0, 11, 0) [] []
               Reference.publicRepository)
            (Reference.set_attests ["type=provenance,mode=min"]
               (Reference.inputs "."))
            Reference.start eq_refl _))).
  exists "type=provenance,mode=min". split; [now left | reflexivity].
Defined.

(** X10: with no explicit provenance, no default provenance is added when
    BuildKit does not satisfy [>=0.11.0] or when the image goes to the docker
    exporter (or is loaded); with no sbom and no entry in [attests] either,
    [getAttestArgs] then returns no token at all. *)
Theorem default_provenance_suppressed
    (toolkit : Toolkit) (inputs : Inputs) (s : State) :
  truthy (provenance inputs) = false ->
  buildkit_versionSatisfies toolkit (builder inputs) ">=0.11.0" = false
  \/ hasDockerExporter toolkit (outputs inputs) (load inputs) = true ->
  getAttestArgs toolkit inputs s
  = Returned
      (sbomTokens toolkit inputs
       ++ flat_map (attestEntryTokens toolkit inputs) (attests inputs)) s
  /\ (truthy (sbom inputs) = false ->
      attests inputs = [] ->
      getAttestArgs toolkit inputs s = Returned [] s).
Proof.
  intros Hp Hor.
  assert (E : provenanceTokens toolkit inputs = []).
  { unfold provenanceTokens, defaultProvenanceWanted. rewrite Hp.
    destruct Hor as [-> | ->]; rewrite ?andb_false_r; reflexivity. }
  rewrite getAttestArgs_returns. unfold attestTokens. rewrite E.
  split; [reflexivity|].
  intros Hs Ha. unfold sbomTokens. now rewrite Hs, Ha.
Qed.

(** An output of type docker with BuildKit 0.11.0, and BuildKit 0.10.6
    without output: no attestation. *)
Lemma default_provenance_suppressed_witness :
  getAttestArgs
    (Reference.toolkit (0, 12, 0) (0, 11, 0) [] [] Reference.publicRepository)
    (Reference.set_outputs ["type=docker"] (Reference.inputs "."))
    Reference.start
  = Returned [] Reference.start
  /\ getAttestArgs
       (Reference.toolkit (0, 12, 0) (0, 10, 6) [] []
          Reference.publicRepository)
       (Reference.inputs ".") Reference.start
     = Returned [] Reference.start.
Proof.
  split.
  - exact (proj2 (default_provenance_suppressed
             (Reference.toolkit (0, 12, 0) (0, 11, 0) [] []
                Reference.publicRepository)
             (Reference.set_outputs ["type=docker"] (Reference.inputs "."))
             Reference.start eq_refl (or_intror eq_refl)) eq_refl eq_refl).
  - exact (proj2 (default_provenance_suppressed
             (Reference.toolkit (0, 12, 0) (0, 10, 6) [] []
                Reference.publicRepository)
             (Reference.inputs ".")
             Reference.start eq_refl (or_introl eq_refl)) eq_refl eq_refl).
Defined.

(** *** Warnings and errors *)

Lemma secretFailures_In (resolve : string -> Resolution)
    (entries : list string) (w : string) :
  In w (secretFailures resolve entries) ->
  exists entry, In entry entries /\ resolve entry = Failed w.
Proof.
  induction entries as [|e rest IH]; simpl; [intros []|].
  rewrite in_app_iff. intros [H|H].
  - destruct (resolve e) as [v|m] eqn:R; simpl in H; [destruct H|].
    destruct H as [<-|[]]. exists e. auto.
  - destruct (IH H) as [entry [Hin Hr]]. exists entry. auto.
Qed.

Lemma secretFailures_none (resolve : string -> Resolution)
    (entries : list string) :
  (forall entry, In entry entries -> resolves (resolve entry) = true) ->
  secretFailures resolve entries = [].
Proof.
  induction entries as [|e rest IH]; simpl; [reflexivity|].
  intros H. rewrite IH by (intros; apply H; now right).
  pose proof (H e (or_introl eq_refl)) as He.
  destruct (resolve e); [reflexivity | discriminate].
Qed.

Lemma secretFailures_bound (resolve : string -> Resolution)
    (entries : list string) :
  List.length (secretFailures resolve entries) <= List.length entries.
Proof.
  induction entries as [|e rest IH]; simpl; [lia|].
  rewrite length_app. destruct (resolve e); simpl; lia.
Qed.

(** X11: when [getBuildArgs] returns, it has kept the warnings given before
    it and added its own.  Each warning it leaves is an earlier one, one of
    the three fixed messages about an ignored input, or the message of the
    failure of an entry of one of the three lists of secrets; with a buildx
    that satisfies the three ranges and secrets that all resolve it adds
    none; it adds at most three more than there are secrets; and when
    [getArgs] returns from the same state, its warnings are the same. *)
Theorem builder_warnings
    (toolkit : Toolkit) (inputs : Inputs) (context : string) (s s' : State)
    (tokens : list string) :
  getBuildArgs toolkit inputs context s = Returned tokens s' ->
  (exists given, warnings s' = warnings s ++ given)
  /\ (forall w,
         In w (warnings s') ->
         In w (warnings s)
         \/ In w [annotationsIgnored; buildContextsIgnored;
                  attestationsIgnored]
         \/ (exists entry,
                In entry (secretEnvs inputs)
                /\ resolveSecretEnv toolkit entry = Failed w)
         \/ (exists entry,
                In entry (secrets inputs)
                /\ resolveSecretString toolkit entry = Failed w)
         \/ (exists entry,
                In entry (secretFiles inputs)
                /\ resolveSecretFile toolkit entry = Failed w))
  /\ (buildx_versionSatisfies toolkit ">=0.12.0" = true ->
      buildx_versionSatisfies toolkit ">=0.8.0" = true ->
      buildx_versionSatisfies toolkit ">=0.10.0" = true ->
      (forall entry,
          In entry (secretEnvs inputs) ->
          resolves (resolveSecretEnv toolkit entry) = true) ->
      (forall entry,
          In entry (secrets inputs) ->
          resolves (resolveSecretString toolkit entry) = true) ->
      (forall entry,
          In entry (secretFiles inputs) ->
          resolves (resolveSecretFile toolkit entry) = true) ->
      warnings s' = warnings s)
  /\ List.length (warnings s')
     <= List.length (warnings s) + 3 + List.length (secretEnvs inputs)
        + List.length (secrets inputs) + List.length (secretFiles inputs)
  /\ (forall all s1,
         getArgs toolkit inputs s = Returned all s1 ->
         warnings s1 = warnings s').
Proof.
  intros H. apply getBuildArgs_returned in H. destruct H as [-> _].
  cbn [extend warnings].
  split; [|split; [|split; [|split]]].
  - now exists (buildWarnings toolkit inputs).
  - intros w. rewrite in_app_iff. intros [H|H]; [now left|]. right.
    revert H. unfold buildWarnings. rewrite !in_app_iff.
    intros [H|[H|[H|[H|[H|H]]]]].
    + left. destruct (buildx_versionSatisfies toolkit ">=0.12.0");
        [destruct H|].
      destruct (0 <? List.length (annotations inputs))%nat; [|destruct H].
      destruct H as [<-|[]]. simpl. auto.
    + left. destruct (buildx_versionSatisfies toolkit ">=0.8.0");
        [destruct H|].
      destruct (0 <? List.length (buildContexts inputs))%nat; [|destruct H].
      destruct H as [<-|[]]. simpl. auto.
    + right. left. now apply secretFailures_In.
    + left. destruct (buildx_versionSatisfies toolkit ">=0.10.0");
        [destruct H|].
      destruct H as [<-|[]]. simpl. auto.
    + right. right. left. now apply secretFailures_In.
    + right. right. right. now apply secretFailures_In.
  - intros H12 H8 H10 He Hs Hf. unfold buildWarnings.
    rewrite H12, H8, H10, !secretFailures_none by assumption.
    now rewrite app_nil_r.
  - unfold buildWarnings. rewrite !length_app.
    pose proof (secretFailures_bound (resolveSecretEnv toolkit)
                  (secretEnvs inputs)).
    pose proof (secretFailures_bound (resolveSecretString toolkit)
                  (secrets inputs)).
    pose proof (secretFailures_bound (resolveSecretFile toolkit)
                  (secretFiles inputs)).
    destruct (buildx_versionSatisfies toolkit ">=0.12.0"),
      (buildx_versionSatisfies toolkit ">=0.8.0"),
      (buildx_versionSatisfies toolkit ">=0.10.0"),
      (0 <? List.length (annotations inputs))%nat,
      (0 <? List.length (buildContexts inputs))%nat; simpl; lia.
  - intros all s1 A. rewrite getArgs_outcome in A.
    destruct (getBuildArgs toolkit inputs (expandedContext toolkit inputs) s)
      as [build s2|e s2] eqn:B; inversion A; subst.
    apply getBuildArgs_returned in B. destruct B as [-> _]. reflexivity.
Qed.

(** buildx 0.9.0, a secret that resolves and the file of a secret that is
    not there: two warnings, that about the attestations and that of the
    file, after the one given before. *)
Lemma builder_warnings_witness :
  List.length
    ["earlier";
     "Attestations are only supported by buildx >= 0.10.0; the inputs 'attests', 'provenance' and 'sbom' are ignored.";
     "secret file /run/npmrc not found"]
  <= 1 + 3 + 0 + 1 + 1.
Proof.
  exact (proj1 (proj2 (proj2 (proj2 (@builder_warnings
           (Reference.toolkit (0, 9, 0) (0, 11, 0) [] []
              Reference.publicRepository)
           (Reference.set_secretFiles ["npmrc=/run/npmrc"]
              (Reference.set_secrets ["npm=token"] (Reference.inputs ".")))
           "." {| args := []; warnings := ["earlier"] |} _ _ eq_refl))))).
Defined.

(** *** The context *)

(** X13: [getInputs] takes the context from the input [context] and, when
    that input is empty, from the default source-control context, so that
    the context is empty only if both are.  A run with no [context] input, a
    [github-token], no plain secret that is a git auth token and a template
    expansion that keeps the start of the git context gets the synthesized
    secret, and its last argument is the expanded git context. *)
Theorem getInputs_default_context (action : Action) (toolkit : Toolkit) :
  (getInput action "context" = "" ->
   context (getInputs action toolkit) = gitContext toolkit)
  /\ (getInput action "context" <> "" ->
      context (getInputs action toolkit) = getInput action "context")
  /\ (context (getInputs action toolkit) = "" ->
      getInput action "context" = "" /\ gitContext toolkit = "")
  /\ (forall s v,
         getInput action "context" = "" ->
         getInput action "github-token" <> "" ->
         hasGitAuthTokenSecret toolkit
           (secrets (getInputs action toolkit)) = false ->
         startsWith
           (handlebars_compile toolkit (gitContext toolkit)
              (gitContext toolkit))
           (gitContext toolkit) = true ->
         resolveSecretString toolkit
           ("GIT_AUTH_TOKEN=" ++ getInput action "github-token")%string
         = Resolved v ->
         getArgs toolkit (getInputs action toolkit) s
         = Returned
             (("build" :: tokensBefore toolkit (getInputs action toolkit)
                       ++ ["--secret"; v]
                       ++ tokensAfter (getInputs action toolkit))
              ++ commonTokens toolkit (getInputs action toolkit)
              ++ [handlebars_compile toolkit (gitContext toolkit)
                    (gitContext toolkit)])
             (extend s []
                (buildWarnings toolkit (getInputs action toolkit)))).
Proof.
  assert (D : getInput action "context" = "" ->
              context (getInputs action toolkit) = gitContext toolkit).
  { intros H. simpl. unfold or_else. now rewrite H. }
  assert (G : getInput action "context" <> "" ->
              context (getInputs action toolkit) = getInput action "context").
  { intros H. simpl. unfold or_else. apply truthy_true in H. now rewrite H. }
  split; [exact D|]. split; [exact G|]. split.
  - intros H. destruct (String.eqb_spec (getInput action "context") "")
      as [E|N].
    + split; [exact E|]. now rewrite <- (D E).
    + rewrite (G N) in H. contradiction.
  - intros s v Hc Ht Hs Hp Hr.
    rewrite getArgs_outcome, getBuildArgs_outcome.
    unfold expandedContext, gitAuthTokenWanted, gitAuthTokenSecret.
    rewrite (D Hc), Hs, Hp.
    change (githubToken (getInputs action toolkit))
      with (getInput action "github-token").
    apply truthy_true in Ht. rewrite Ht, Hr. reflexivity.
Qed.

(** A workflow that gives only the token: the context is the git context
    and the git auth token is passed as a secret. *)
Lemma getInputs_default_context_witness :
  getArgs
    (Reference.toolkit (0, 12, 0) (0, 11, 0) [] [] Reference.publicRepository)
    (getInputs
       (Reference.action [("github-token", "ghs_token")])
       (Reference.toolkit (0, 12, 0) (0, 11, 0) [] []
          Reference.publicRepository))
    Reference.start
  = Returned
      ["build"; "--iidfile"; "/tmp/docker-actions-toolkit/iidfile";
       "--attest";
       "type=provenance,mode=max,builder-id=https://github.com/docker/build-push-action/actions/runs/123";
       "--secret"; "id=GIT_AUTH_TOKEN,src=/tmp/secrets/GIT_AUTH_TOKEN";
       "--metadata-file"; "/tmp/docker-actions-toolkit/metadata-file";
       "https://github.com/docker/build-push-action.git#refs/heads/master"]
      Reference.start.
Proof.
  refine (proj2 (proj2 (proj2 (getInputs_default_context
            (Reference.action [("github-token", "ghs_token")])
            (Reference.toolkit (0, 12, 0) (0, 11, 0) [] []
               Reference.publicRepository))))
            Reference.start
            "id=GIT_AUTH_TOKEN,src=/tmp/secrets/GIT_AUTH_TOKEN"
            eq_refl _ eq_refl eq_refl eq_refl).
  discriminate.
Defined.

(** X14: the context reaches [getBuildArgs] only through the test of line
    172: two contexts that both start, or both do not start, with the default
    source-control context give the same outcome, and the context is no
    token of it. *)
Theorem getBuildArgs_context_only_tested
    (toolkit : Toolkit) (inputs : Inputs) (context context' : string)
    (s : State) :
  startsWith context (gitContext toolkit)
  = startsWith context' (gitContext toolkit) ->
  getBuildArgs toolkit inputs context s
  = getBuildArgs toolkit inputs context' s.
Proof.
  intros H. rewrite !getBuildArgs_outcome. unfold gitAuthTokenWanted.
  now rewrite H.
Qed.

(** Two directories of another repository. *)
Lemma getBuildArgs_context_only_tested_witness :
  getBuildArgs
    (Reference.toolkit (0, 12, 0) (0, 11, 0) [] [] Reference.publicRepository)
    (Reference.set_githubToken "ghs_token" (Reference.inputs "."))
    "./app" Reference.start
  = getBuildArgs
      (Reference.toolkit (0, 12, 0) (0, 11, 0) [] []
         Reference.publicRepository)
      (Reference.set_githubToken "ghs_token" (Reference.inputs "."))
      "./docs" Reference.start.
Proof.
  exact (getBuildArgs_context_only_tested
           (Reference.toolkit (0, 12, 0) (0, 11, 0) [] []
              Reference.publicRepository)
           (Reference.set_githubToken "ghs_token" (Reference.inputs "."))
           "./app" "./docs" Reference.start eq_refl).
Defined.
